(** * Secret resolution, retry and configuration caching

    A shallow embedding of [src/utils.py] and [src/settings.py]:
    the [retry] decorator, the three secret helpers, the
    [BaseConfig.resolve_secrets] validator and the memoised [get_config].

    Python code is effectful: it raises, logs, sleeps, talks to remote
    secret stores, writes [os.environ] and fills the [lru_cache] of
    [get_config].  All of this is made explicit as a state-and-exception
    monad over a [World]. *)

From Stdlib Require Import ZArith QArith Qpower Lia Ascii String.
From stdpp Require Import base option list strings gmap pretty.

#[local] Set Warnings "-clear-no-such-hyp".

Open Scope string_scope.
Open Scope list_scope.
Open Scope Z_scope.

(** ** Python values and exceptions *)

(** The values a raw configuration payload can hold. *)
Inductive PyVal :=
  | VNone
  | VBool (b : bool)
  | VInt (n : Z)
  | VStr (s : string)
  | VBytes (bs : list Byte.byte).

(** [bool(value)]: Python truthiness. *)
Definition truthy (value : PyVal) : bool :=
  match value with
  | VNone => false
  | VBool b => b
  | VInt n => negb (n =? 0)
  | VStr s => negb (String.eqb s "")
  | VBytes bs => negb (Nat.eqb (length bs) 0)
  end.

(** [isinstance(value, str)]. *)
Definition isinstance_str (value : PyVal) : bool :=
  match value with
  | VStr _ => true
  | _ => false
  end.

(** Exceptions (all of them subclasses of [Exception]).  [ValueError]
    carries the [__cause__] set by [raise ... from e]; [ClientError] carries
    botocore's [response] dictionary and its rendered message. *)
#[local] Set Warnings "-register-all".
Inductive Exn :=
  | ValueError (msg : string) (cause : option Exn)
  | KeyError (key : string)
  | ClientError (response : gmap string (gmap string string)) (msg : string)
  | UnicodeDecodeError (msg : string)
  | ValidationError (msg : string)
  | LibraryError (type_name msg : string).

(** [type(e).__name__] *)
Definition exn_type_name (e : Exn) : string :=
  match e with
  | ValueError _ _ => "ValueError"
  | KeyError _ => "KeyError"
  | ClientError _ _ => "ClientError"
  | UnicodeDecodeError _ => "UnicodeDecodeError"
  | ValidationError _ => "ValidationError"
  | LibraryError n _ => n
  end.

(** [str(e)] *)
Definition exn_str (e : Exn) : string :=
  match e with
  | ValueError m _ => m
  | KeyError k => "'" +:+ k +:+ "'"
  | ClientError _ m => m
  | UnicodeDecodeError m => m
  | ValidationError m => m
  | LibraryError _ m => m
  end.

(** ** The world *)

Inductive Level := DEBUG | WARNING | ERROR.

Record LogRecord := mkLog { log_level : Level; log_message : string }.

Inductive BackendKind := Aws | Azure | Gcp.

(** A configuration object built by pydantic.  [inst_id] is the identity of
    the Python object: two instances with equal fields are still distinct
    objects when their ids differ. *)
Record ConfigInstance := mkInstance {
  inst_id : nat;
  inst_class : string;
  inst_fields : gmap string PyVal
}.

Record World := mkWorld {
  environ : gmap string string;              (* os.environ *)
  logs : list LogRecord;                     (* records sent to [logger], oldest first *)
  sleeps : list Q;                           (* arguments of [time.sleep], oldest first *)
  calls : list (BackendKind * string);       (* requests that reached a remote store *)
  cache : list (option string * ConfigInstance); (* lru_cache of get_config, most recent first *)
  next_id : nat;                             (* next fresh object identity *)
  resolver_runs : nat                        (* how often pydantic ran resolve_secrets *)
}.

Definition emit (l : Level) (m : string) (w : World) : World :=
  mkWorld (environ w) (logs w ++ [mkLog l m]) (sleeps w) (calls w)
          (cache w) (next_id w) (resolver_runs w).

Definition time_sleep (d : Q) (w : World) : World :=
  mkWorld (environ w) (logs w) (sleeps w ++ [d]) (calls w)
          (cache w) (next_id w) (resolver_runs w).

Definition record_call (k : BackendKind) (request : string) (w : World) : World :=
  mkWorld (environ w) (logs w) (sleeps w) (calls w ++ [(k, request)])
          (cache w) (next_id w) (resolver_runs w).

Definition set_environ (e : gmap string string) (w : World) : World :=
  mkWorld e (logs w) (sleeps w) (calls w) (cache w) (next_id w) (resolver_runs w).

Definition set_cache (c : list (option string * ConfigInstance)) (w : World) : World :=
  mkWorld (environ w) (logs w) (sleeps w) (calls w) c (next_id w) (resolver_runs w).

Definition bump_id (w : World) : World :=
  mkWorld (environ w) (logs w) (sleeps w) (calls w) (cache w)
          (S (next_id w)) (resolver_runs w).

Definition count_resolver_run (w : World) : World :=
  mkWorld (environ w) (logs w) (sleeps w) (calls w) (cache w)
          (next_id w) (S (resolver_runs w)).

(** ** Computations that may raise *)

Inductive Result (A : Type) :=
  | Ok (a : A)
  | Raise (e : Exn).
Arguments Ok {A} a.
Arguments Raise {A} e.

(** A Python computation: it ends in a value or an exception, and the
    effects it had before raising stay. *)
Definition Py (A : Type) : Type := World → Result A * World.

Definition ret {A} (a : A) : Py A := λ w, (Ok a, w).
Definition raise {A} (e : Exn) : Py A := λ w, (Raise e, w).
Definition bind {A B} (m : Py A) (f : A → Py B) : Py B :=
  λ w, match m w with
       | (Ok a, w') => f a w'
       | (Raise e, w') => (Raise e, w')
       end.
Definition effect (f : World → World) : Py unit := λ w, (Ok tt, f w).
Definition get_world : Py World := λ w, (Ok w, w).

Notation "'let!' x ':=' m 'in' k" := (bind m (λ x, k))
  (at level 10, x name, m at level 100, k at level 200).
Notation "'do!' m 'in' k" := (bind m (λ _, k))
  (at level 10, m at level 100, k at level 200).

(** A library call that only computes: it returns or raises. *)
Definition lift {A} (r : Result A) : Py A := λ w, (r, w).

(** [try: body  except Exception as e: handler(e)] *)
Definition try_except {A} (body : Py A) (handler : Exn → Py A) : Py A :=
  λ w, match body w with
       | (Ok a, w') => (Ok a, w')
       | (Raise e, w') => handler e w'
       end.

(** ** [retry] (src/utils.py) *)

(** [range(attempts)] *)
Definition range (n : Z) : list Z := Z.of_nat <$> seq 0 (Z.to_nat n).

(** The message of [logger.warning] before a retry. *)
Definition retry_warning (fn_name : string) (i attempts : Z) (e : Exn) : string :=
  "Retrying " +:+ fn_name +:+ " (attempt " +:+ pretty (i + 2) +:+ "/"
  +:+ pretty attempts +:+ ") after " +:+ exn_type_name e +:+ ": " +:+ exn_str e.

(** The [for i in range(attempts)] loop of [wrapper], with the current
    [wait] threaded through.  When the loop runs out, Python's implicit
    [return None] is [Ok None].

    [time.sleep(wait)] is a library call that refuses some arguments: a
    negative length raises [ValueError], a length beyond the range of the
    clock raises [OverflowError].  [sleep_error wait] is the exception it
    raises for [wait], if any; like the other library calls it is a
    parameter.  The call sits in the [except] block, after the warning: its
    exception leaves the wrapper at once, and only a sleep that was
    accepted is recorded by [time_sleep]. *)
Fixpoint retry_loop {A} (sleep_error : Q → option Exn) (attempts : Z) (backoff : Q)
    (fn_name : string) (fn : Py A) (idx : list Z) (wait : Q) : Py (option A) :=
  match idx with
  | [] => ret None
  | i :: rest =>
      λ w, match fn w with
           | (Ok a, w') => (Ok (Some a), w')
           | (Raise e, w') =>
               if i =? attempts - 1 then (Raise e, w')
               else
                 let warned := emit WARNING (retry_warning fn_name i attempts e) w' in
                 match sleep_error wait with
                 | Some refusal => (Raise refusal, warned)
                 | None =>
                     retry_loop sleep_error attempts backoff fn_name fn rest
                       (wait * backoff)%Q (time_sleep wait warned)
                 end
           end
  end.

(** [retry(attempts, delay, backoff)(fn)] *)
Definition retry {A} (sleep_error : Q → option Exn) (attempts : Z) (delay backoff : Q)
    (fn_name : string) (fn : Py A) : Py (option A) :=
  retry_loop sleep_error attempts backoff fn_name fn (range attempts) delay.


(** [time.sleep] as documented for a length within the range of the
    clock: it refuses a negative one. *)
Definition refuses_negative (d : Q) : option Exn :=
  if Qle_bool 0 d then None
  else Some (ValueError "sleep length must be non-negative" None).

(** The decorator's defaults: [retry()]. *)
Definition default_attempts : Z := 3.
Definition default_delay : Q := (1 # 4)%Q.
Definition default_backoff : Q := 2%Q.

(** ** External collaborators

    The vendor SDKs and pydantic are not part of the repository.  They are
    taken as parameters: each answer may depend on the whole world at the
    time of the call (credentials in [os.environ], earlier requests, ...). *)

Record AwsResponse := mkAwsResponse {
  SecretString : option string;            (* response.get("SecretString") *)
  SecretBinary : option (list Byte.byte)   (* response.get("SecretBinary") *)
}.

Record ConfigClass := mkClass {
  class_name : string;
  env_prefix : string;
  (* the classmethod a subclass may override *)
  _get_secret_field_mapping : gmap string (list string)
}.

Record Externals := mkExternals {
  (* boto3.client("secretsmanager"): the exception it raises, if any *)
  boto3_client : World → option Exn;
  (* client.get_secret_value(SecretId=...) *)
  get_secret_value : World → string → Result AwsResponse;
  (* secretmanager.SecretManagerServiceClient() *)
  SecretManagerServiceClient : World → option Exn;
  (* client.access_secret_version(request={"name": ...}).payload.data *)
  access_secret_version : World → string → Result (list Byte.byte);
  (* DefaultAzureCredential() and SecretClient(vault_url=..., credential=...) *)
  SecretClient : World → string → option Exn;
  (* client.get_secret(name).value, given the vault url of the client *)
  get_secret : World → string → string → Result (option string);
  (* bytes.decode("utf-8") *)
  decode_utf8 : list Byte.byte → Result string;
  (* pydantic-settings: the payload read from the environment sources *)
  settings_sources : ConfigClass → World → Result (list (string * PyVal));
  (* pydantic: what an exception raised inside a validator turns into *)
  validator_error : Exn → Exn;
  (* pydantic: field validation of the payload the validator returned *)
  validate_fields : ConfigClass → gmap string PyVal → Result (gmap string PyVal)
}.

(** The value of an [Optional[str]] when it is truthy. *)
Definition nonempty (o : option string) : option string :=
  match o with
  | Some s => if String.eqb s "" then None else Some s
  | None => None
  end.

Definition nonempty_bytes (o : option (list Byte.byte)) : option (list Byte.byte) :=
  match o with
  | Some [] => None
  | Some bs => Some bs
  | None => None
  end.

(** Constructing a client: no request leaves the process, but it can raise. *)
Definition construct (c : World → option Exn) : Py unit :=
  λ w, match c w with
       | Some e => (Raise e, w)
       | None => (Ok tt, w)
       end.

(** A request to a remote store: it is recorded, then answered. *)
Definition remote_call {A} (k : BackendKind) (request : string)
    (answer : World → Result A) : Py A :=
  λ w, (answer w, record_call k request w).

Section Helpers.
Variable X : Externals.

(** *** [aws_secret_helper] *)

(** The [except ClientError as e] clause; any other exception passes. *)
Definition aws_except (value : string) (e : Exn) : Py PyVal :=
  match e with
  | ClientError response _ =>
      let error_code := default "" (default ∅ (response !! "Error") !! "Code") in
      if String.eqb error_code "ResourceNotFoundException" then
        do! effect (emit ERROR ("AWS secret not found: " +:+ value)) in
        raise (ValueError ("AWS secret not found: " +:+ value) (Some e))
      else
        do! effect (emit ERROR ("Error fetching AWS secret " +:+ value
                                +:+ ": " +:+ exn_str e)) in
        raise e
  | _ => raise e
  end.

Definition aws_try (value : string) : Py PyVal :=
  let! response := remote_call Aws value (λ w, get_secret_value X w value) in
  let! secret_value :=
    match nonempty (SecretString response) with
    | Some secret_value => ret secret_value
    | None =>
        match nonempty_bytes (SecretBinary response) with
        | Some secret_binary => lift (decode_utf8 X secret_binary)
        | None => raise (ValueError ("AWS secret " +:+ value
                           +:+ " has no SecretString or SecretBinary") None)
        end
    end in
  do! effect (emit DEBUG ("Fetched secret from AWS Secrets Manager: " +:+ value)) in
  ret (VStr secret_value).

Definition aws_secret_helper (value : string) : Py PyVal :=
  do! construct (boto3_client X) in
  try_except (aws_try value) (aws_except value).

(** *** [gcp_secret_helper] *)

Definition gcp_try (value : string) : Py PyVal :=
  let! w := get_world in
  match nonempty (environ w !! "GOOGLE_CLOUD_PROJECT") with
  | None => raise (ValueError "GOOGLE_CLOUD_PROJECT environment variable must be set" None)
  | Some project_id =>
      let name := "projects/" +:+ project_id +:+ "/secrets/" +:+ value
                  +:+ "/versions/latest" in
      let! data := remote_call Gcp name (λ w, access_secret_version X w name) in
      let! secret_value := lift (decode_utf8 X data) in
      do! effect (emit DEBUG ("Fetched secret from GCP Secret Manager: " +:+ value)) in
      ret (VStr secret_value)
  end.

Definition gcp_secret_helper (value : string) : Py PyVal :=
  do! construct (SecretManagerServiceClient X) in
  try_except (gcp_try value)
    (λ e, do! effect (emit ERROR ("Error fetching GCP secret " +:+ value
                                  +:+ ": " +:+ exn_str e)) in
          raise e).

(** *** [azure_secret_helper] *)

Definition azure_try (vault_url value : string) : Py PyVal :=
  let! secret_value :=
    remote_call Azure value (λ w, get_secret X w vault_url value) in
  do! effect (emit DEBUG ("Fetched secret from Azure Key Vault: " +:+ value)) in
  ret (match secret_value with Some s => VStr s | None => VNone end).

Definition azure_secret_helper (value : string) : Py PyVal :=
  let! w := get_world in
  match nonempty (environ w !! "AZURE_KEY_VAULT_URL") with
  | None => raise (ValueError "AZURE_KEY_VAULT_URL environment variable must be set" None)
  | Some vault_url =>
      do! construct (λ w, SecretClient X w vault_url) in
      try_except (azure_try vault_url value)
        (λ e, do! effect (emit ERROR ("Error fetching Azure secret " +:+ value
                                      +:+ ": " +:+ exn_str e)) in
              raise e)
  end.

(** The helper of each backend kind. *)
Definition fetch (k : BackendKind) : string → Py PyVal :=
  match k with
  | Aws => aws_secret_helper
  | Azure => azure_secret_helper
  | Gcp => gcp_secret_helper
  end.

End Helpers.

(** ** [BaseConfig] and its subclasses (src/settings.py) *)

(** [BaseConfig._get_secret_field_mapping()]; no subclass of the module
    overrides it. *)
Definition base_secret_field_mapping : gmap string (list string) :=
  <["aws" := []]> (<["azure" := []]> (<["gcp" := []]> ∅)).

Definition BaseConfig : ConfigClass := mkClass "BaseConfig" "" base_secret_field_mapping.
Definition GlobalConfig : ConfigClass := mkClass "GlobalConfig" "" base_secret_field_mapping.
Definition DevConfig : ConfigClass := mkClass "DevConfig" "DEV_" base_secret_field_mapping.
Definition TestConfig : ConfigClass := mkClass "TestConfig" "TEST_" base_secret_field_mapping.
Definition ProdConfig : ConfigClass := mkClass "ProdConfig" "PROD_" base_secret_field_mapping.

(** [secret_mapping.get(kind, [])] *)
Definition mapping_get (secret_mapping : gmap string (list string)) (kind : string)
    : list string :=
  default [] (secret_mapping !! kind).

(** [field_name in fields] *)
Definition py_in (field_name : string) (fields : list string) : bool :=
  bool_decide (field_name ∈ fields).

Section Resolver.
Variable X : Externals.

(** One turn of the loop of [resolve_secrets]: the statement executed for
    the item [(field_name, value)], on the dictionary built so far. *)
Definition resolve_item (secret_mapping : gmap string (list string))
    (resolved : gmap string PyVal) (field_name : string) (value : PyVal)
    : Py (gmap string PyVal) :=
  match value with
  | VStr s =>
      if negb (truthy value) || negb (isinstance_str value) then
        ret (<[field_name := value]> resolved)
      else if py_in field_name (mapping_get secret_mapping "aws") then
        let! v := aws_secret_helper X s in ret (<[field_name := v]> resolved)
      else if py_in field_name (mapping_get secret_mapping "azure") then
        let! v := azure_secret_helper X s in ret (<[field_name := v]> resolved)
      else if py_in field_name (mapping_get secret_mapping "gcp") then
        let! v := gcp_secret_helper X s in ret (<[field_name := v]> resolved)
      else
        ret (<[field_name := value]> resolved)
  | _ =>
      (* [not isinstance(value, str)] *)
      ret (<[field_name := value]> resolved)
  end.

(** [for field_name, value in data.items(): ...] *)
Fixpoint resolve_loop (secret_mapping : gmap string (list string))
    (items : list (string * PyVal)) (resolved : gmap string PyVal)
    : Py (gmap string PyVal) :=
  match items with
  | [] => ret resolved
  | (field_name, value) :: rest =>
      let! resolved' := resolve_item secret_mapping resolved field_name value in
      resolve_loop secret_mapping rest resolved'
  end.

(** [resolve_secrets(cls, data)]; [data] lists [data.items()] in the
    insertion order of the dictionary. *)
Definition resolve_secrets (cls : ConfigClass) (data : list (string * PyVal))
    : Py (gmap string PyVal) :=
  let resolved : gmap string PyVal := ∅ in
  let secret_mapping := _get_secret_field_mapping cls in
  resolve_loop secret_mapping data resolved.

(** Which backend the [if]/[elif] chain picks for a field name. *)
Definition classify (cls : ConfigClass) (field_name : string) : option BackendKind :=
  let secret_mapping := _get_secret_field_mapping cls in
  if py_in field_name (mapping_get secret_mapping "aws") then Some Aws
  else if py_in field_name (mapping_get secret_mapping "azure") then Some Azure
  else if py_in field_name (mapping_get secret_mapping "gcp") then Some Gcp
  else None.

(** *** Instantiating a settings class

    [cls()]: pydantic-settings reads the sources, runs the
    [mode="before"] validator [resolve_secrets] on the payload, validates
    the fields and allocates the object. *)
Definition instantiate (cls : ConfigClass) : Py ConfigInstance :=
  let! w := get_world in
  let! data := lift (settings_sources X cls w) in
  do! effect count_resolver_run in
  let! resolved := try_except (resolve_secrets cls data)
                     (λ e, raise (validator_error X e)) in
  let! fields := lift (validate_fields X cls resolved) in
  let! w' := get_world in
  do! effect bump_id in
  ret (mkInstance (next_id w') (class_name cls) fields).

(** *** [get_config] *)

Definition ascii_lower (c : ascii) : ascii :=
  let n := nat_of_ascii c in
  if (65 <=? n)%nat && (n <=? 90)%nat then ascii_of_nat (n + 32) else c.

(** [str.lower()] on the ASCII letters; other bytes are kept. *)
Fixpoint lower (s : string) : string :=
  match s with
  | EmptyString => EmptyString
  | String c rest => String (ascii_lower c) (lower rest)
  end.

(** [v = os.environ.get(prefix + name); if v: os.environ[name] = v] *)
Definition promote (prefix name : string) : Py unit :=
  λ w, match nonempty (environ w !! (prefix +:+ name)) with
       | Some v => (Ok tt, set_environ (<[name := v]> (environ w)) w)
       | None => (Ok tt, w)
       end.

(** The body of [if env_state == "dev":] *)
Definition promote_dev_credentials : Py unit :=
  let prefix := "DEV_" in
  do! promote prefix "AWS_ACCESS_KEY_ID" in
  do! promote prefix "AWS_SECRET_ACCESS_KEY" in
  do! promote prefix "AWS_SESSION_TOKEN" in
  do! promote prefix "AWS_REGION" in
  do! promote prefix "GOOGLE_APPLICATION_CREDENTIALS" in
  do! promote prefix "AZURE_CLIENT_ID" in
  do! promote prefix "AZURE_CLIENT_SECRET" in
  do! promote prefix "AZURE_TENANT_ID" in
  promote prefix "AZURE_KEY_VAULT_URL".

Definition configs : gmap string ConfigClass :=
  <["dev" := DevConfig]> (<["prod" := ProdConfig]> (<["test" := TestConfig]> ∅)).

(** The function under the decorator ([get_config.__wrapped__]);
    [env_state = None] is an unset [ENV_STATE]. *)
Definition get_config_wrapped (env_state : option string) : Py ConfigInstance :=
  match nonempty env_state with
  | None =>
      raise (ValueError "ENV_STATE is not set. Possible values are: DEV, TEST, PROD" None)
  | Some env_state =>
      let env_state := lower env_state in
      do! (if String.eqb env_state "dev" then promote_dev_credentials else ret tt) in
      match configs !! env_state with
      | Some cls => instantiate cls
      | None => raise (KeyError env_state)
      end
  end.

(** *** [functools.lru_cache()]

    The cache is keyed by the argument as passed, holds at most
    [lru_maxsize] results, most recently used first, and stores a result
    only when the call returned. *)
Definition lru_maxsize : nat := 128.

Fixpoint cache_lookup (key : option string)
    (c : list (option string * ConfigInstance)) : option ConfigInstance :=
  match c with
  | [] => None
  | (k, v) :: rest => if decide (k = key) then Some v else cache_lookup key rest
  end.

Definition cache_drop (key : option string)
    (c : list (option string * ConfigInstance)) : list (option string * ConfigInstance) :=
  filter (λ kv, kv.1 ≠ key) c.

Definition lru_cache (fn : option string → Py ConfigInstance)
    (key : option string) : Py ConfigInstance :=
  λ w, match cache_lookup key (cache w) with
       | Some v => (Ok v, set_cache ((key, v) :: cache_drop key (cache w)) w)
       | None =>
           match fn key w with
           | (Ok v, w') =>
               (Ok v, set_cache (take lru_maxsize ((key, v) :: cache w')) w')
           | (Raise e, w') => (Raise e, w')
           end
       end.

(** [@lru_cache() def get_config(env_state)] *)
Definition get_config : option string → Py ConfigInstance :=
  lru_cache get_config_wrapped.

End Resolver.

(** ** Test doubles

    Concrete worlds, operations and collaborators on which the model is run. *)

Definition world0 : World := mkWorld ∅ [] [] [] [] 0 0.

(** The error of the [n]-th failing invocation (counted from 0). *)
Definition timeout_error (n : nat) : Exn :=
  LibraryError "TimeoutError" ("timed out, invocation " +:+ pretty n).

(** An operation that sends one request and then fails, at every
    invocation, each time with an error of its own. *)
Definition always_failing : Py PyVal :=
  λ w, (Raise (timeout_error (length (calls w))), record_call Aws "ref" w).

(** An operation that fails until [n] requests have been sent and succeeds
    from then on. *)
Definition flaky_operation (n : nat) : Py PyVal :=
  λ w, (if (length (calls w) <? n)%nat
        then Raise (timeout_error (length (calls w)))
        else Ok (VStr "abc"),
        record_call Aws "ref" w).

(** botocore's [ClientError] with the given error code. *)
Definition client_error (code : string) : Exn :=
  ClientError (<["Error" := <["Code" := code]> ∅]> ∅)
    ("An error occurred (" +:+ code +:+ ") when calling the GetSecretValue operation").

(** Collaborators around a scripted AWS store: clients are always built,
    the other two stores answer ["abc"], bytes decode as they are, the
    settings sources deliver [payload] and validation accepts it. *)
Definition stub_externals (aws : World → string → Result AwsResponse)
    (payload : list (string * PyVal)) : Externals :=
  mkExternals
    (λ _, None) aws
    (λ _, None) (λ _ _, Ok (list_byte_of_string "abc"))
    (λ _ _, None) (λ _ _ _, Ok (Some "abc"))
    (λ bs, Ok (string_of_list_byte bs))
    (λ _ _, Ok payload) (λ e, e) (λ _ fields, Ok fields).

(** An AWS store that is throttled for its first [n] requests and then
    returns the text ["abc"]. *)
Definition flaky_aws (n : nat) : World → string → Result AwsResponse :=
  λ w _, if (length (calls w) <? n)%nat
         then Raise (client_error "ThrottlingException")
         else Ok (mkAwsResponse (Some "abc") None).

(** A settings class that overrides [_get_secret_field_mapping]: its field
    [API_KEY] is a reference into the AWS store. *)
Definition SecretsConfig : ConfigClass :=
  mkClass "SecretsConfig" "PROD_" (<["aws" := ["API_KEY"]]> base_secret_field_mapping).

Definition example_payload : list (string * PyVal) :=
  [("API_KEY", VStr "secret-ref-123"); ("LOG_LEVEL", VStr "INFO")].

(** A payload whose secret-bound field is left empty. *)
Definition blank_payload : list (string * PyVal) :=
  [("API_KEY", VStr ""); ("LOG_LEVEL", VStr "INFO")].

(** Named collaborators. *)
Definition not_found_externals : Externals :=
  stub_externals (λ _ _, Raise (client_error "ResourceNotFoundException")) [].
Definition access_denied_externals : Externals :=
  stub_externals (λ _ _, Raise (client_error "AccessDeniedException")) [].
Definition reliable_externals : Externals := stub_externals (flaky_aws 0) [].
Definition throttled_once_externals : Externals := stub_externals (flaky_aws 1) [].
Definition abc_externals : Externals :=
  stub_externals (λ _ _, Ok (mkAwsResponse (Some "abc") None)) [].
Definition hunter2_externals : Externals :=
  stub_externals (λ _ _, Ok (mkAwsResponse (Some "hunter2") None)) [].

(** Collaborators whose field validation rejects every payload. *)
Definition rejecting_externals : Externals :=
  mkExternals
    (λ _, None) (flaky_aws 0)
    (λ _, None) (λ _ _, Ok (list_byte_of_string "abc"))
    (λ _ _, None) (λ _ _ _, Ok (Some "abc"))
    (λ bs, Ok (string_of_list_byte bs))
    (λ _ _, Ok []) (λ e, e)
    (λ _ _, Raise (ValidationError "1 validation error for ProdConfig")).

(** ** Reachable caches

    An environment value is recognised when it is set, not empty, and its
    lower-case form is a key of [configs].  [lru_cache] only ever stores
    results of calls that returned, so in every world the program can reach
    the keys of the cache are recognised values. *)
Definition recognised (env_state : option string) : Prop :=
  ∃ s, nonempty env_state = Some s ∧ is_Some (configs !! lower s).

Definition cache_sound (w : World) : Prop :=
  ∀ k v, (k, v) ∈ cache w → recognised k.

(** The name under which each store appears in the log. *)
Definition store_name (k : BackendKind) : string :=
  match k with
  | Aws => "AWS Secrets Manager"
  | Azure => "Azure Key Vault"
  | Gcp => "GCP Secret Manager"
  end.

(** ** More test doubles *)

(** [isinstance(e, ClientError)] *)
Definition is_client_error (e : Exn) : bool :=
  match e with
  | ClientError _ _ => true
  | _ => false
  end.

(** A fresh process with the given environment variables. *)
Definition world_with (env : gmap string string) : World :=
  mkWorld env [] [] [] [] 0 0.

(** A network failure that is not a [ClientError]. *)
Definition connection_error : Exn :=
  LibraryError "EndpointConnectionError" "Could not connect to the endpoint URL".

(** Collaborators around scripted GCP and Azure stores; clients are always
    built and the AWS store answers ["abc"]. *)
Definition cloud_externals (gcp : World → string → Result (list Byte.byte))
    (azure : World → string → string → Result (option string)) : Externals :=
  mkExternals
    (λ _, None) (flaky_aws 0)
    (λ _, None) gcp
    (λ _ _, None) azure
    (λ bs, Ok (string_of_list_byte bs))
    (λ _ _, Ok []) (λ e, e) (λ _ fields, Ok fields).

(** Collaborators none of whose clients can be built (no credentials). *)
Definition no_credentials_externals : Externals :=
  mkExternals
    (λ _, Some (LibraryError "NoCredentialsError" "Unable to locate credentials"))
    (flaky_aws 0)
    (λ _, Some (LibraryError "DefaultCredentialsError" "Could not determine credentials"))
    (λ _ _, Ok (list_byte_of_string "abc"))
    (λ _ _, Some (LibraryError "CredentialUnavailableError" "No credential available"))
    (λ _ _ _, Ok (Some "abc"))
    (λ bs, Ok (string_of_list_byte bs))
    (λ _ _, Ok []) (λ e, e) (λ _ fields, Ok fields).

(** A settings class with a faulty mapping: [API_KEY] is listed under all
    three stores. *)
Definition AmbiguousConfig : ConfigClass :=
  mkClass "AmbiguousConfig" "PROD_"
    (<["aws" := ["API_KEY"]]> (<["azure" := ["API_KEY"]]> (<["gcp" := ["API_KEY"]]> ∅))).

(** ** Promotion of the development credentials *)

(** The variables that the [dev] branch of [get_config] copies from their
    [DEV_] form, in the order of the source. *)
Definition dev_promoted_names : list string :=
  ["AWS_ACCESS_KEY_ID"; "AWS_SECRET_ACCESS_KEY"; "AWS_SESSION_TOKEN"; "AWS_REGION";
   "GOOGLE_APPLICATION_CREDENTIALS"; "AZURE_CLIENT_ID"; "AZURE_CLIENT_SECRET";
   "AZURE_TENANT_ID"; "AZURE_KEY_VAULT_URL"].

(** What one promotion does to [os.environ]. *)
Definition promote_env (prefix name : string) (env : gmap string string)
    : gmap string string :=
  match nonempty (env !! (prefix +:+ name)) with
  | Some v => <[name := v]> env
  | None => env
  end.

(** The value of a variable after promotion from its prefixed form. *)
Definition promoted_value (prefix name : string) (env : gmap string string)
    : option string :=
  match nonempty (env !! (prefix +:+ name)) with
  | Some v => Some v
  | None => env !! name
  end.

(** ** The module-level configuration (src/settings.py, last line) *)

(** [BaseConfig().ENV_STATE]; the field is an [Optional[str]] whose default
    is [None]. *)
Definition env_state_of (base : ConfigInstance) : option string :=
  match inst_fields base !! "ENV_STATE" with
  | Some (VStr s) => Some s
  | _ => None
  end.

(** [config = get_config(BaseConfig().ENV_STATE)], run when the module is
    imported. *)
Definition module_config (X : Externals) : Py ConfigInstance :=
  let! base := instantiate X BaseConfig in
  get_config X (env_state_of base).

(** Collaborators whose settings sources deliver the given payload for every
    class; validation accepts it as it is. *)
Definition sourced_externals (payload : list (string * PyVal)) : Externals :=
  stub_externals (flaky_aws 0) payload.

(** ** [setup_logging] (src/logging_conf.py)

    The function only talks to libraries; it is embedded as the list of the
    calls it makes, in order, with their arguments. *)

(** The attributes of [config] that [setup_logging] reads.  [GlobalConfig]
    declares each of them, so reading them cannot fail. *)
Record LoggingSettings := mkLoggingSettings {
  LOG_LEVEL : PyVal;
  OPEN_TELEMETRY_FLAG : PyVal;
  OPEN_TELEMETRY_TRACE_ENDPOINT : PyVal;
  OPEN_TELEMETRY_LOG_ENDPOINT : PyVal;
  OPEN_TELEMETRY_AUTHORIZATION_TOKEN : PyVal
}.

(** The values found in the dictionary given to [dictConfig]. *)
Inductive CfgVal :=
  | CInt (n : Z)
  | CBool (b : bool)
  | CStr (s : string)
  | CPy (v : PyVal)                       (* an attribute of [config] *)
  | CObject (name : string)               (* a class or an object of a library *)
  | CNames (names : list string)          (* a list of strings *)
  | CDict (items : list (string * CfgVal)).

Inductive SetupCall :=
  | structlog_configure (processors : list string) (wrapper_class logger_factory : string)
      (cache_logger_on_first_use : bool)
  | TracerProvider
  | set_tracer_provider
  | LoggerProvider
  | set_logger_provider
  | OTLPSpanExporter (endpoint : PyVal) (headers : list (string * PyVal))
  | BatchSpanProcessor
  | add_span_processor
  | OTLPLogExporter (endpoint : PyVal) (headers : list (string * PyVal))
  | BatchLogRecordProcessor
  | add_log_record_processor
  | dictConfig (config : CfgVal).

(** [d.get(key)] on a dictionary listed in insertion order. *)
Fixpoint dict_get {V : Type} (key : string) (d : list (string * V)) : option V :=
  match d with
  | [] => None
  | (k, v) :: rest => if String.eqb k key then Some v else dict_get key rest
  end.

Definition as_dict (v : CfgVal) : list (string * CfgVal) :=
  match v with
  | CDict items => items
  | _ => []
  end.

Definition setup_logging (config : LoggingSettings) : list SetupCall :=
  let configure :=
    [structlog_configure
       ["structlog.contextvars.merge_contextvars";
        "structlog.processors.add_log_level";
        "structlog.processors.TimeStamper(fmt=iso)";
        "structlog.stdlib.add_logger_name";
        "structlog.stdlib.add_log_level";
        "structlog.processors.StackInfoRenderer()";
        "structlog.processors.format_exc_info";
        "structlog.stdlib.render_to_log_kwargs"]
       "structlog.stdlib.BoundLogger" "structlog.stdlib.LoggerFactory()" true;
     TracerProvider; set_tracer_provider; LoggerProvider; set_logger_provider] in
  let default_handler :=
    CDict [("class", CStr "rich.logging.RichHandler");
           ("level", CPy (LOG_LEVEL config));
           ("formatter", CStr "console");
           ("show_path", CBool false)] in
  let '(telemetry, handlers) :=
    if truthy (OPEN_TELEMETRY_FLAG config) then
      ([OTLPSpanExporter (OPEN_TELEMETRY_TRACE_ENDPOINT config)
          [("Authorization", OPEN_TELEMETRY_AUTHORIZATION_TOKEN config)];
        BatchSpanProcessor; add_span_processor;
        OTLPLogExporter (OPEN_TELEMETRY_LOG_ENDPOINT config)
          [("Authorization", OPEN_TELEMETRY_AUTHORIZATION_TOKEN config)];
        BatchLogRecordProcessor; add_log_record_processor],
       [("default", default_handler);
        ("otel", CDict [("()", CObject "LoggingHandler");
                        ("level", CPy (LOG_LEVEL config));
                        ("logger_provider", CObject "logger_provider")])])
    else
      ([], [("default", default_handler)]) in
  let formatters :=
    [("console", CDict [("class", CStr "logging.Formatter");
                        ("datefmt", CStr "%Y-%m-%dT%H:%M:%S");
                        ("format", CStr "%(name)s:%(lineno)d - %(message)s")])] in
  let loggers :=
    [("src", CDict [("level", CPy (LOG_LEVEL config));
                    ("handlers", CNames handlers.*1);
                    ("propagate", CBool false)])] in
  configure ++ telemetry ++
  [dictConfig (CDict [("version", CInt 1);
                      ("disable_existing_loggers", CBool false);
                      ("formatters", CDict formatters);
                      ("handlers", CDict handlers);
                      ("loggers", CDict loggers)])].

(** The dictionary of the [dictConfig] call that ends a list of calls, and
    its parts. *)
Definition dict_config_of (made : list SetupCall) : list (string * CfgVal) :=
  match last made with
  | Some (dictConfig (CDict items)) => items
  | _ => []
  end.

Definition section_of (name : string) (made : list SetupCall) : list (string * CfgVal) :=
  as_dict (default (CDict []) (dict_get name (dict_config_of made))).

Definition is_exporter (c : SetupCall) : bool :=
  match c with
  | OTLPSpanExporter _ _ | OTLPLogExporter _ _ => true
  | _ => false
  end.

(** The settings of a production and of a development process. *)
Definition prod_logging : LoggingSettings :=
  mkLoggingSettings (VStr "WARNING") (VBool true)
    (VStr "https://otel.example/v1/traces") (VStr "https://otel.example/v1/logs")
    (VStr "Bearer t0ken").
Definition dev_logging : LoggingSettings :=
  mkLoggingSettings (VStr "DEBUG") (VBool false) VNone VNone (VStr "Bearer t0ken").

(** * Properties *)

(** ** The retry wrapper *)


Lemma range_seq (i0 n : nat) :
  Z.of_nat <$> seq i0 (S n) = Z.of_nat i0 :: (Z.of_nat <$> seq (S i0) n).
Proof. reflexivity. Qed.

Section RetryFacts.
Context {A : Type}.
Variables (sleep_error : Q → option Exn).
Variables (attempts : Z) (backoff : Q) (fn_name : string) (fn : Py A).


(** One failed attempt that is not the last one, followed by a sleep that
    is refused: the refusal leaves the loop, after the warning. *)
Lemma retry_loop_refused i rest wait w e w1 refusal :
  fn w = (Raise e, w1) →
  i ≠ attempts - 1 →
  sleep_error wait = Some refusal →
  retry_loop sleep_error attempts backoff fn_name fn (i :: rest) wait w =
  (Raise refusal, emit WARNING (retry_warning fn_name i attempts e) w1).
Proof.
  intros Hfn Hi Hsleep. cbn [retry_loop]. rewrite Hfn, Hsleep.
  destruct (Z.eqb_spec i (attempts - 1)); [contradiction | reflexivity].
Qed.


Lemma retry_loop_success i rest wait w a w1 :
  fn w = (Ok a, w1) →
  retry_loop sleep_error attempts backoff fn_name fn (i :: rest) wait w
  = (Ok (Some a), w1).
Proof. intros Hfn. cbn [retry_loop]. now rewrite Hfn. Qed.




(** *** Counting invocations

    When every invocation of the wrapped function sends exactly one
    request and does not sleep itself, the requests count the invocations
    and [sleeps] holds the back-off delays only. *)
Hypothesis one_request : ∀ w, length (calls (fn w).2) = S (length (calls w)).
Hypothesis no_sleep : ∀ w, sleeps (fn w).2 = sleeps w.


End RetryFacts.





(** ** The secret helpers *)

Section HelperFacts.
Variable X : Externals.

Lemma aws_except_raises value e w :
  ∃ e' w', aws_except value e w = (Raise e', w').
Proof.
  unfold aws_except. destruct e; try (eexists _, _; reflexivity).
  case_match; eexists _, _; reflexivity.
Qed.

(** What a returning call of each helper has logged. *)
Lemma aws_success_logs value w v w' :
  aws_secret_helper X value w = (Ok v, w') →
  logs w' = logs w ++ [mkLog DEBUG ("Fetched secret from AWS Secrets Manager: " +:+ value)]
  ∧ calls w' = calls w ++ [(Aws, value)] ∧ sleeps w' = sleeps w.
Proof.
  unfold aws_secret_helper, construct, try_except, aws_try, bind, remote_call,
    lift, effect, ret, raise.
  intros H. repeat case_match; simplify_eq; try done;
    match goal with
    | H : aws_except ?v ?e ?w = (Ok _, _) |- _ =>
        destruct (aws_except_raises v e w) as (? & ? & ?); congruence
    end.
Qed.

Lemma gcp_success_logs value w v w' :
  gcp_secret_helper X value w = (Ok v, w') →
  logs w' = logs w ++ [mkLog DEBUG ("Fetched secret from GCP Secret Manager: " +:+ value)]
  ∧ length (calls w') = S (length (calls w)) ∧ sleeps w' = sleeps w.
Proof.
  unfold gcp_secret_helper, construct, try_except, gcp_try, bind, remote_call,
    lift, effect, ret, raise, get_world.
  intros H. repeat case_match; simplify_eq; split_and!; try done.
  cbn. rewrite length_app. cbn. lia.
Qed.

Lemma azure_success_logs value w v w' :
  azure_secret_helper X value w = (Ok v, w') →
  logs w' = logs w ++ [mkLog DEBUG ("Fetched secret from Azure Key Vault: " +:+ value)]
  ∧ calls w' = calls w ++ [(Azure, value)] ∧ sleeps w' = sleeps w.
Proof.
  unfold azure_secret_helper, construct, try_except, azure_try, bind, remote_call,
    lift, effect, ret, raise, get_world.
  intros H. repeat case_match; simplify_eq; done.
Qed.

End HelperFacts.

(** C8.  [aws_secret_helper] on a reference [value], once the client is
    built.  A [ClientError] whose code is [ResourceNotFoundException]
    becomes a [ValueError] "AWS secret not found: <value>" (chained to the
    client error); any other [ClientError] is raised again as it is; a
    response yields its non-empty [SecretString], else its non-empty
    [SecretBinary] decoded as UTF-8; a response with neither raises a
    [ValueError] saying that the secret has no content. *)
Theorem aws_secret_helper_outcomes (X : Externals) (value : string) (w : World) :
  boto3_client X w = None →
  (∀ response msg,
      get_secret_value X w value = Raise (ClientError response msg) →
      default "" (default ∅ (response !! "Error") !! "Code") = "ResourceNotFoundException" →
      aws_secret_helper X value w =
        (Raise (ValueError ("AWS secret not found: " +:+ value)
                  (Some (ClientError response msg))),
         emit ERROR ("AWS secret not found: " +:+ value) (record_call Aws value w))) ∧
  (∀ response msg,
      get_secret_value X w value = Raise (ClientError response msg) →
      default "" (default ∅ (response !! "Error") !! "Code") ≠ "ResourceNotFoundException" →
      aws_secret_helper X value w =
        (Raise (ClientError response msg),
         emit ERROR ("Error fetching AWS secret " +:+ value +:+ ": " +:+ msg)
           (record_call Aws value w))) ∧
  (∀ response text,
      get_secret_value X w value = Ok response →
      nonempty (SecretString response) = Some text →
      aws_secret_helper X value w =
        (Ok (VStr text),
         emit DEBUG ("Fetched secret from AWS Secrets Manager: " +:+ value)
           (record_call Aws value w))) ∧
  (∀ response binary text,
      get_secret_value X w value = Ok response →
      nonempty (SecretString response) = None →
      nonempty_bytes (SecretBinary response) = Some binary →
      decode_utf8 X binary = Ok text →
      aws_secret_helper X value w =
        (Ok (VStr text),
         emit DEBUG ("Fetched secret from AWS Secrets Manager: " +:+ value)
           (record_call Aws value w))) ∧
  (∀ response,
      get_secret_value X w value = Ok response →
      nonempty (SecretString response) = None →
      nonempty_bytes (SecretBinary response) = None →
      aws_secret_helper X value w =
        (Raise (ValueError ("AWS secret " +:+ value
                            +:+ " has no SecretString or SecretBinary") None),
         record_call Aws value w)).
Proof.
  intros Hclient.
  unfold aws_secret_helper, construct, try_except, aws_try, bind, remote_call,
    lift, effect, ret, raise.
  rewrite Hclient.
  split_and!.
  - intros response msg -> Hcode. cbn. rewrite Hcode. reflexivity.
  - intros response msg -> Hcode. cbn.
    destruct (String.eqb_spec
                (default "" (default ∅ (response !! "Error") !! "Code"))
                "ResourceNotFoundException"); [contradiction | reflexivity].
  - intros response text -> ->. reflexivity.
  - intros response binary text -> -> -> ->. reflexivity.
  - intros response -> -> ->. reflexivity.
Qed.

(** The store does not know the secret. *)
Lemma aws_secret_helper_outcomes_witness :
  boto3_client not_found_externals world0 = None ∧
  aws_secret_helper not_found_externals "db-password" world0 =
  (Raise (ValueError "AWS secret not found: db-password"
            (Some (client_error "ResourceNotFoundException"))),
   emit ERROR "AWS secret not found: db-password"
     (record_call Aws "db-password" world0)).
Proof.
  split; [reflexivity|].
  apply (proj1 (aws_secret_helper_outcomes not_found_externals
                  "db-password" world0 eq_refl)
           _ _ eq_refl).
  vm_compute. reflexivity.
Defined.

(** C9.  A fetch that returns logs one record: a debug record naming the
    store and the reference.  The record does not depend on the secret: two
    runs for the same reference, against stores that return whatever
    secrets, leave the same log. *)
Theorem successful_fetch_log_independent_of_secret
    (X1 X2 : Externals) (k : BackendKind) (reference : string)
    (w1 w2 w1' w2' : World) (secret1 secret2 : PyVal) :
  fetch X1 k reference w1 = (Ok secret1, w1') →
  fetch X2 k reference w2 = (Ok secret2, w2') →
  logs w1 = logs w2 →
  logs w1' = logs w1 ++ [mkLog DEBUG ("Fetched secret from " +:+ store_name k
                                      +:+ ": " +:+ reference)]
  ∧ logs w1' = logs w2'.
Proof.
  intros H1 H2 Hlogs. destruct k; cbn [fetch store_name] in *.
  - apply aws_success_logs in H1 as (H1 & _). apply aws_success_logs in H2 as (H2 & _).
    split; [exact H1 | congruence].
  - apply azure_success_logs in H1 as (H1 & _). apply azure_success_logs in H2 as (H2 & _).
    split; [exact H1 | congruence].
  - apply gcp_success_logs in H1 as (H1 & _). apply gcp_success_logs in H2 as (H2 & _).
    split; [exact H1 | congruence].
Qed.

(** Two stores holding different secrets under the same reference. *)
Lemma successful_fetch_log_independent_of_secret_witness :
  (fetch abc_externals Aws "db-password" world0).1 = Ok (VStr "abc") ∧
  (fetch hunter2_externals Aws "db-password" world0).1 = Ok (VStr "hunter2") ∧
  logs (fetch abc_externals Aws "db-password" world0).2 =
    [mkLog DEBUG "Fetched secret from AWS Secrets Manager: db-password"] ∧
  logs (fetch abc_externals Aws "db-password" world0).2
    = logs (fetch hunter2_externals Aws "db-password" world0).2.
Proof.
  split; [reflexivity|]. split; [reflexivity|].
  apply (successful_fetch_log_independent_of_secret abc_externals hunter2_externals
           Aws "db-password" world0 world0 _ _ (VStr "abc") (VStr "hunter2"));
    reflexivity.
Defined.

(** ** [resolve_secrets] *)

Section ResolverFacts.
Variable X : Externals.

(** Every helper sends at most one request and never sleeps. *)
Lemma fetch_frame k value w r w' :
  fetch X k value w = (r, w') →
  sleeps w' = sleeps w ∧ cache w' = cache w ∧ next_id w' = next_id w ∧
  resolver_runs w' = resolver_runs w ∧ environ w' = environ w ∧
  (length (calls w) ≤ length (calls w') ≤ S (length (calls w)))%nat.
Proof.
  destruct k; cbn [fetch];
    unfold aws_secret_helper, azure_secret_helper, gcp_secret_helper, construct,
      try_except, aws_try, azure_try, gcp_try, aws_except, bind, remote_call,
      lift, effect, ret, raise, get_world;
    intros H; repeat case_match; simplify_eq; cbn;
    rewrite ?length_app; cbn; split_and!; try done; lia.
Qed.

Lemma fetch_success_one_request k value w v w' :
  fetch X k value w = (Ok v, w') →
  length (calls w') = S (length (calls w)).
Proof.
  destruct k; cbn [fetch]; intros H.
  - apply aws_success_logs in H as (_ & -> & _). rewrite length_app. cbn. lia.
  - apply azure_success_logs in H as (_ & -> & _). rewrite length_app. cbn. lia.
  - now apply gcp_success_logs in H as (_ & -> & _).
Qed.

Lemma classify_none cls k :
  k ∉ mapping_get (_get_secret_field_mapping cls) "aws" →
  k ∉ mapping_get (_get_secret_field_mapping cls) "azure" →
  k ∉ mapping_get (_get_secret_field_mapping cls) "gcp" →
  classify cls k = None.
Proof.
  intros Ha Hz Hg. unfold classify, py_in.
  rewrite !bool_decide_eq_false_2 by done. reflexivity.
Qed.

(** A field whose name is in no field set is copied. *)
Lemma resolve_item_unclassified cls resolved k v w :
  classify cls k = None →
  resolve_item X (_get_secret_field_mapping cls) resolved k v w
  = (Ok (<[k := v]> resolved), w).
Proof.
  unfold classify, resolve_item. intros Hc.
  destruct v; try reflexivity.
  repeat case_match; simplify_eq; reflexivity.
Qed.

(** A value that is falsy or not a string is copied. *)
Lemma resolve_item_ineligible m resolved k v w :
  truthy v && isinstance_str v = false →
  resolve_item X m resolved k v w = (Ok (<[k := v]> resolved), w).
Proof.
  unfold resolve_item. intros Hv. destruct v; try reflexivity.
  cbn in Hv. rewrite andb_true_r in Hv. cbn [truthy isinstance_str].
  rewrite Hv. reflexivity.
Qed.

(** A non-empty string under a classified name goes to the helper of its
    backend, which is called once, directly. *)
Lemma resolve_item_classified cls resolved k s kind w :
  s ≠ "" →
  classify cls k = Some kind →
  resolve_item X (_get_secret_field_mapping cls) resolved k (VStr s) w
  = (let! v := fetch X kind s in ret (<[k := v]> resolved)) w.
Proof.
  unfold classify, resolve_item. intros Hs Hc.
  cbn [truthy isinstance_str].
  destruct (String.eqb_spec s ""); [contradiction|]. cbn [negb orb].
  repeat case_match; simplify_eq; reflexivity.
Qed.

(** Whatever the branch, a turn of the loop that returns has set the key. *)
Lemma resolve_item_inserts m resolved k v w r' w' :
  resolve_item X m resolved k v w = (Ok r', w') →
  ∃ v', r' = <[k := v']> resolved.
Proof.
  unfold resolve_item, bind, ret. intros H.
  repeat case_match; simplify_eq; eauto.
Qed.

Lemma resolve_loop_app m pre post resolved w :
  resolve_loop X m (pre ++ post) resolved w
  = (let! r1 := resolve_loop X m pre resolved in resolve_loop X m post r1) w.
Proof.
  revert resolved w. induction pre as [|[k v] pre IH]; intros resolved w.
  - reflexivity.
  - cbn [app resolve_loop]. unfold bind.
    destruct (resolve_item X m resolved k v w) as [[r1|e] w1]; [|reflexivity].
    rewrite IH. reflexivity.
Qed.

(** The loop writes the keys of its items and no other. *)
Lemma resolve_loop_other_keys m items resolved w r' w' k :
  resolve_loop X m items resolved w = (Ok r', w') →
  k ∉ items.*1 →
  r' !! k = resolved !! k.
Proof.
  revert resolved w. induction items as [|[k0 v0] items IH]; intros resolved w H Hk.
  - cbn in H. unfold ret in H. now simplify_eq.
  - cbn [resolve_loop] in H. unfold bind in H.
    destruct (resolve_item X m resolved k0 v0 w) as [[r1|e] w1] eqn:Hitem; [|discriminate].
    apply resolve_item_inserts in Hitem as (v' & ->).
    rewrite fmap_cons, not_elem_of_cons in Hk. destruct Hk as (Hne & Hk).
    rewrite (IH _ _ H Hk). cbn in Hne. now rewrite lookup_insert_ne.
Qed.

Lemma resolve_loop_dom m items resolved w r' w' :
  resolve_loop X m items resolved w = (Ok r', w') →
  dom r' = list_to_set items.*1 ∪ dom resolved.
Proof.
  revert resolved w. induction items as [|[k0 v0] items IH]; intros resolved w H.
  - cbn in H. unfold ret in H. simplify_eq. cbn. set_solver.
  - cbn [resolve_loop] in H. unfold bind in H.
    destruct (resolve_item X m resolved k0 v0 w) as [[r1|e] w1] eqn:Hitem; [|discriminate].
    apply resolve_item_inserts in Hitem as (v' & ->).
    rewrite (IH _ _ H), dom_insert_L. cbn. set_solver.
Qed.

(** A field that the loop copies is found, unchanged, in the result, when
    no later item has its name. *)
Lemma resolve_loop_copied m items resolved w r' w' k v :
  NoDup items.*1 →
  (k, v) ∈ items →
  (∀ r0 w0, resolve_item X m r0 k v w0 = (Ok (<[k := v]> r0), w0)) →
  resolve_loop X m items resolved w = (Ok r', w') →
  r' !! k = Some v.
Proof.
  revert resolved w. induction items as [|[k0 v0] items IH]; intros resolved w Hnd Hin Hcopy H.
  - now apply elem_of_nil in Hin.
  - rewrite fmap_cons, NoDup_cons in Hnd. destruct Hnd as (Hfresh & Hnd).
    cbn [resolve_loop] in H. unfold bind in H.
    destruct (resolve_item X m resolved k0 v0 w) as [[r1|e] w1] eqn:Hitem; [|discriminate].
    apply elem_of_cons in Hin as [Heq | Hin].
    + cbn in Hfresh. simplify_eq. rewrite Hcopy in Hitem. simplify_eq.
      rewrite (resolve_loop_other_keys _ _ _ _ _ _ _ H Hfresh).
      apply lookup_insert_eq.
    + eapply IH; eauto.
Qed.

End ResolverFacts.

(** C3.  Resolution is all or nothing.  When the fields before [(k, v)]
    have been resolved and the turn of the loop for [(k, v)] raises, then
    [resolve_secrets] raises that same error in the world that turn left:
    the fields after it are not looked at, whatever they are, and no
    dictionary is returned.  And a dictionary that is returned holds every
    field of the payload. *)
Theorem resolve_secrets_all_or_nothing (X : Externals) (cls : ConfigClass)
    (pre post : list (string * PyVal)) (k : string) (v : PyVal)
    (w w1 w2 : World) (r1 : gmap string PyVal) (e : Exn) :
  resolve_secrets X cls pre w = (Ok r1, w1) →
  resolve_item X (_get_secret_field_mapping cls) r1 k v w1 = (Raise e, w2) →
  resolve_secrets X cls (pre ++ (k, v) :: post) w = (Raise e, w2)
  ∧ ∀ data resolved w', resolve_secrets X cls data w = (Ok resolved, w') →
      dom resolved = list_to_set data.*1.
Proof.
  unfold resolve_secrets. intros Hpre Hitem. split.
  - rewrite resolve_loop_app. unfold bind at 1. rewrite Hpre.
    cbn [resolve_loop]. unfold bind. now rewrite Hitem.
  - intros data resolved w' H. apply resolve_loop_dom in H. set_solver.
Qed.

(** The store does not know [API_KEY]: [LOG_LEVEL] is never reached. *)
Lemma resolve_secrets_all_or_nothing_witness :
  resolve_secrets not_found_externals SecretsConfig [] world0 = (Ok ∅, world0) ∧
  resolve_item not_found_externals (_get_secret_field_mapping SecretsConfig) ∅
    "API_KEY" (VStr "secret-ref-123") world0
  = (Raise (ValueError "AWS secret not found: secret-ref-123"
              (Some (client_error "ResourceNotFoundException"))),
     emit ERROR "AWS secret not found: secret-ref-123"
       (record_call Aws "secret-ref-123" world0)) ∧
  resolve_secrets not_found_externals SecretsConfig example_payload world0
  = (Raise (ValueError "AWS secret not found: secret-ref-123"
              (Some (client_error "ResourceNotFoundException"))),
     emit ERROR "AWS secret not found: secret-ref-123"
       (record_call Aws "secret-ref-123" world0)).
Proof.
  split; [reflexivity|]. split; [reflexivity|].
  apply (resolve_secrets_all_or_nothing not_found_externals SecretsConfig []
           [("LOG_LEVEL", VStr "INFO")] "API_KEY" (VStr "secret-ref-123")
           world0 world0 _ ∅ _); reflexivity.
Defined.

(** C4.  A field whose name is in none of the three field sets of the
    class: the turn of the loop for it copies the raw value and touches
    nothing else, and when [resolve_secrets] returns, the resolved value is
    the raw value. *)
Theorem unclassified_field_passthrough (X : Externals) (cls : ConfigClass)
    (data : list (string * PyVal)) (k : string) (v : PyVal)
    (w w' : World) (resolved : gmap string PyVal) :
  NoDup data.*1 →
  (k, v) ∈ data →
  k ∉ mapping_get (_get_secret_field_mapping cls) "aws" →
  k ∉ mapping_get (_get_secret_field_mapping cls) "azure" →
  k ∉ mapping_get (_get_secret_field_mapping cls) "gcp" →
  resolve_secrets X cls data w = (Ok resolved, w') →
  resolved !! k = Some v
  ∧ ∀ r0 w0, resolve_item X (_get_secret_field_mapping cls) r0 k v w0
             = (Ok (<[k := v]> r0), w0).
Proof.
  intros Hnd Hin Ha Hz Hg H.
  assert (Hcopy : ∀ r0 w0, resolve_item X (_get_secret_field_mapping cls) r0 k v w0
                           = (Ok (<[k := v]> r0), w0)).
  { intros r0 w0. apply resolve_item_unclassified. now apply classify_none. }
  split; [|exact Hcopy].
  unfold resolve_secrets in H. eapply resolve_loop_copied; eauto.
Qed.

Lemma example_payload_nodup : NoDup example_payload.*1.
Proof. cbn. repeat (apply NoDup_cons_2 || apply NoDup_nil_2); set_solver. Qed.

Lemma log_level_in_example_payload : ("LOG_LEVEL", VStr "INFO") ∈ example_payload.
Proof. unfold example_payload. set_solver. Qed.

Lemma log_level_in_no_field_set (kind : string) :
  kind = "aws" ∨ kind = "azure" ∨ kind = "gcp" →
  "LOG_LEVEL" ∉ mapping_get (_get_secret_field_mapping SecretsConfig) kind.
Proof.
  intros [-> | [-> | ->]].
  - change (mapping_get (_get_secret_field_mapping SecretsConfig) "aws") with ["API_KEY"].
    set_solver.
  - change (mapping_get (_get_secret_field_mapping SecretsConfig) "azure")
      with (@nil string).
    set_solver.
  - change (mapping_get (_get_secret_field_mapping SecretsConfig) "gcp")
      with (@nil string).
    set_solver.
Qed.

Lemma unclassified_field_passthrough_witness :
  NoDup example_payload.*1 ∧
  ("LOG_LEVEL", VStr "INFO") ∈ example_payload ∧
  (resolve_secrets reliable_externals SecretsConfig example_payload world0).1
    = Ok (<["LOG_LEVEL" := VStr "INFO"]> (<["API_KEY" := VStr "abc"]> ∅)) ∧
  (<["LOG_LEVEL" := VStr "INFO"]> (<["API_KEY" := VStr "abc"]> ∅) : gmap string PyVal)
    !! "LOG_LEVEL" = Some (VStr "INFO").
Proof.
  split; [exact example_payload_nodup|]. split; [exact log_level_in_example_payload|].
  split; [vm_compute; reflexivity|].
  apply (unclassified_field_passthrough reliable_externals SecretsConfig example_payload
           "LOG_LEVEL" (VStr "INFO") world0
           (resolve_secrets reliable_externals SecretsConfig example_payload world0).2 _
           example_payload_nodup log_level_in_example_payload).
  - apply log_level_in_no_field_set. tauto.
  - apply log_level_in_no_field_set. tauto.
  - apply log_level_in_no_field_set. tauto.
  - vm_compute. reflexivity.
Defined.

(** C5.  A field whose value is [None], a boolean, not a string at all, or
    the empty string: the turn of the loop for it copies the raw value and
    touches nothing else (no helper runs, no request is sent), whether or
    not the name is in a field set; when [resolve_secrets] returns, the
    resolved value is the raw value. *)
Theorem ineligible_value_passthrough (X : Externals) (cls : ConfigClass)
    (data : list (string * PyVal)) (k : string) (v : PyVal)
    (w w' : World) (resolved : gmap string PyVal) :
  NoDup data.*1 →
  (k, v) ∈ data →
  v = VNone ∨ (∃ b, v = VBool b) ∨ isinstance_str v = false ∨ v = VStr "" →
  resolve_secrets X cls data w = (Ok resolved, w') →
  resolved !! k = Some v
  ∧ ∀ r0 w0, resolve_item X (_get_secret_field_mapping cls) r0 k v w0
             = (Ok (<[k := v]> r0), w0).
Proof.
  intros Hnd Hin Hv H.
  assert (Hcopy : ∀ r0 w0, resolve_item X (_get_secret_field_mapping cls) r0 k v w0
                           = (Ok (<[k := v]> r0), w0)).
  { intros r0 w0. apply resolve_item_ineligible.
    destruct Hv as [-> | [[b ->] | [Hv | ->]]]; try reflexivity.
    - apply andb_false_r.
    - rewrite Hv. apply andb_false_r. }
  split; [|exact Hcopy].
  unfold resolve_secrets in H. eapply resolve_loop_copied; eauto.
Qed.

Lemma blank_payload_nodup : NoDup blank_payload.*1.
Proof. cbn. repeat (apply NoDup_cons_2 || apply NoDup_nil_2); set_solver. Qed.

Lemma api_key_in_blank_payload : ("API_KEY", VStr "") ∈ blank_payload.
Proof. unfold blank_payload. set_solver. Qed.

(** [API_KEY] is secret-bound but empty; the store, which would refuse any
    request, is not asked. *)
Lemma ineligible_value_passthrough_witness :
  NoDup blank_payload.*1 ∧
  ("API_KEY", VStr "") ∈ blank_payload ∧
  resolve_secrets access_denied_externals SecretsConfig blank_payload world0
    = (Ok (<["LOG_LEVEL" := VStr "INFO"]> (<["API_KEY" := VStr ""]> ∅)), world0) ∧
  (<["LOG_LEVEL" := VStr "INFO"]> (<["API_KEY" := VStr ""]> ∅) : gmap string PyVal)
    !! "API_KEY" = Some (VStr "").
Proof.
  split; [exact blank_payload_nodup|]. split; [exact api_key_in_blank_payload|].
  split; [vm_compute; reflexivity|].
  apply (ineligible_value_passthrough access_denied_externals SecretsConfig blank_payload
           "API_KEY" (VStr "") world0 world0 _
           blank_payload_nodup api_key_in_blank_payload).
  - right. right. right. reflexivity.
  - vm_compute. reflexivity.
Defined.

(** C1, as the code has it.  A non-empty string under a classified name is
    handed to the helper of its backend directly: [resolve_secrets] does not
    wrap the helpers in [retry].  When the helper returns, its value is
    stored and exactly one request has been sent; when it raises, that error
    leaves the loop at once, after at most one request; in neither case is
    there a back-off sleep. *)
Theorem classified_field_fetched_without_retry (X : Externals) (cls : ConfigClass)
    (r0 : gmap string PyVal) (k s : string) (kind : BackendKind) (w : World) :
  s ≠ "" →
  classify cls k = Some kind →
  (∀ v w', fetch X kind s w = (Ok v, w') →
      resolve_item X (_get_secret_field_mapping cls) r0 k (VStr s) w
        = (Ok (<[k := v]> r0), w')
      ∧ length (calls w') = S (length (calls w)) ∧ sleeps w' = sleeps w) ∧
  (∀ e w', fetch X kind s w = (Raise e, w') →
      resolve_item X (_get_secret_field_mapping cls) r0 k (VStr s) w = (Raise e, w')
      ∧ (length (calls w') ≤ S (length (calls w)))%nat ∧ sleeps w' = sleeps w).
Proof.
  intros Hs Hc. split.
  - intros v w' Hf. rewrite (resolve_item_classified X cls r0 k s kind w Hs Hc).
    unfold bind, ret. rewrite Hf. split_and!; [done | |].
    + eapply fetch_success_one_request; eauto.
    + now apply fetch_frame in Hf.
  - intros e w' Hf. rewrite (resolve_item_classified X cls r0 k s kind w Hs Hc).
    unfold bind. rewrite Hf. split_and!; [done | |].
    + apply fetch_frame in Hf. lia.
    + now apply fetch_frame in Hf.
Qed.

(** [API_KEY] against a store that answers the first request. *)
Lemma classified_field_fetched_without_retry_witness :
  "secret-ref-123" ≠ "" ∧
  classify SecretsConfig "API_KEY" = Some Aws ∧
  resolve_item reliable_externals (_get_secret_field_mapping SecretsConfig) ∅
    "API_KEY" (VStr "secret-ref-123") world0
  = (Ok (<["API_KEY" := VStr "abc"]> ∅),
     emit DEBUG "Fetched secret from AWS Secrets Manager: secret-ref-123"
       (record_call Aws "secret-ref-123" world0)).
Proof.
  assert (Hs : "secret-ref-123" ≠ "") by discriminate.
  assert (Hc : classify SecretsConfig "API_KEY" = Some Aws) by (vm_compute; reflexivity).
  split; [exact Hs|]. split; [exact Hc|].
  apply (proj1 (classified_field_fetched_without_retry reliable_externals SecretsConfig
                  ∅ "API_KEY" "secret-ref-123" Aws world0 Hs Hc)).
  vm_compute. reflexivity.
Defined.

(** C1, as the claim has it, fails.  The store is throttled once and would
    answer the second request, so a retry wrapper with three attempts would
    succeed after two invocations.  [resolve_secrets] sends one request and
    raises the throttling error; it returns no dictionary. *)
Lemma resolve_secrets_does_not_retry :
  (aws_secret_helper throttled_once_externals "secret-ref-123"
     (aws_secret_helper throttled_once_externals "secret-ref-123" world0).2).1
    = Ok (VStr "abc") ∧
  (resolve_secrets throttled_once_externals SecretsConfig example_payload world0).1
    = Raise (client_error "ThrottlingException") ∧
  calls (resolve_secrets throttled_once_externals SecretsConfig example_payload world0).2
    = [(Aws, "secret-ref-123")] ∧
  sleeps (resolve_secrets throttled_once_externals SecretsConfig example_payload world0).2
    = [] ∧
  ¬ ∃ resolved w',
      resolve_secrets throttled_once_externals SecretsConfig example_payload world0
        = (Ok resolved, w')
      ∧ length (calls w') = 2%nat.
Proof.
  split_and!; try (vm_compute; reflexivity).
  intros (resolved & w' & H & _).
  assert (Hr : (resolve_secrets throttled_once_externals SecretsConfig
                  example_payload world0).1 = Raise (client_error "ThrottlingException"))
    by (vm_compute; reflexivity).
  rewrite H in Hr. discriminate.
Qed.

(** ** [get_config] and its cache *)

Section ConfigFacts.
Variable X : Externals.

(** The resolver works on the log and on the remote stores only. *)
Lemma resolve_item_frame m resolved k v w r w' :
  resolve_item X m resolved k v w = (r, w') →
  cache w' = cache w ∧ next_id w' = next_id w ∧
  resolver_runs w' = resolver_runs w ∧ environ w' = environ w.
Proof.
  unfold resolve_item, bind, ret. intros H.
  repeat case_match; simplify_eq; try done;
    match goal with
    | Hf : aws_secret_helper X ?s ?w0 = _ |- _ =>
        apply (fetch_frame X Aws) in Hf; naive_solver
    | Hf : azure_secret_helper X ?s ?w0 = _ |- _ =>
        apply (fetch_frame X Azure) in Hf; naive_solver
    | Hf : gcp_secret_helper X ?s ?w0 = _ |- _ =>
        apply (fetch_frame X Gcp) in Hf; naive_solver
    end.
Qed.

Lemma resolve_loop_frame m items resolved w r w' :
  resolve_loop X m items resolved w = (r, w') →
  cache w' = cache w ∧ next_id w' = next_id w ∧
  resolver_runs w' = resolver_runs w ∧ environ w' = environ w.
Proof.
  revert resolved w. induction items as [|[k v] items IH]; intros resolved w H.
  - cbn in H. unfold ret in H. now simplify_eq.
  - cbn [resolve_loop] in H. unfold bind in H.
    destruct (resolve_item X m resolved k v w) as [[r1|e] w1] eqn:Hitem.
    + apply resolve_item_frame in Hitem. apply IH in H. naive_solver congruence.
    + apply resolve_item_frame in Hitem. now simplify_eq.
Qed.

(** Creating an object runs the resolver at most once and leaves the
    cache alone. *)
Lemma instantiate_frame cls w r w' :
  instantiate X cls w = (r, w') →
  cache w' = cache w ∧ environ w' = environ w ∧
  (resolver_runs w ≤ resolver_runs w' ≤ S (resolver_runs w))%nat.
Proof.
  unfold instantiate, bind, get_world, lift, effect, try_except, ret, raise.
  intros H.
  destruct (settings_sources X cls w) as [data|e0]; [|simplify_eq; split_and!; try done; lia].
  destruct (resolve_secrets X cls data (count_resolver_run w)) as [[resolved|e1] w1] eqn:Hres;
    unfold resolve_secrets in Hres; apply resolve_loop_frame in Hres;
    destruct Hres as (Hc & Hn & Hr & He); cbn in Hc, Hn, Hr, He.
  - destruct (validate_fields X cls resolved); simplify_eq; cbn;
      rewrite ?Hc, ?Hr, ?He; split_and!; try done; lia.
  - simplify_eq. rewrite ?Hc, ?Hr, ?He; split_and!; try done; lia.
Qed.

Lemma promote_spec prefix name w :
  ∃ env', promote prefix name w = (Ok tt, set_environ env' w).
Proof.
  unfold promote. case_match; eexists; [reflexivity|].
  instantiate (1 := environ w). now destruct w.
Qed.

Lemma promote_dev_credentials_spec w :
  ∃ env', promote_dev_credentials w = (Ok tt, set_environ env' w).
Proof.
  unfold promote_dev_credentials, bind.
  repeat match goal with
         | |- context [promote ?p ?n ?w0] =>
             let env := fresh "env" in let H := fresh "H" in
             destruct (promote_spec p n w0) as (env & H); rewrite H; clear H;
             change (set_environ env (set_environ ?e0 w)) with (set_environ env w)
         end.
  eexists. reflexivity.
Qed.

Lemma configs_lookup_Some name cls :
  configs !! name = Some cls → name = "dev" ∨ name = "prod" ∨ name = "test".
Proof.
  unfold configs. intros H.
  repeat (apply lookup_insert_Some in H as [[<- _] | [_ H]]; [tauto|]).
  now rewrite lookup_empty in H.
Qed.

Lemma configs_lookup_None name :
  name ≠ "dev" → name ≠ "test" → name ≠ "prod" → configs !! name = None.
Proof.
  intros Hd Ht Hp. destruct (configs !! name) as [cls|] eqn:H; [|reflexivity].
  apply configs_lookup_Some in H. naive_solver.
Qed.

(** The decorated function leaves the cache alone and runs the resolver
    at most once. *)
Lemma get_config_wrapped_frame env_state w r w' :
  get_config_wrapped X env_state w = (r, w') →
  cache w' = cache w ∧ (resolver_runs w ≤ resolver_runs w' ≤ S (resolver_runs w))%nat.
Proof.
  unfold get_config_wrapped, raise. intros H.
  destruct (nonempty env_state) as [s|]; [|simplify_eq; split; [done | lia]].
  unfold bind in H.
  assert (Hpro : ∃ env', (if String.eqb (lower s) "dev"
                          then promote_dev_credentials else ret tt) w
                         = (Ok tt, set_environ env' w)).
  { destruct (String.eqb (lower s) "dev").
    - apply promote_dev_credentials_spec.
    - exists (environ w). unfold ret. now destruct w. }
  destruct Hpro as (env' & Hpro). rewrite Hpro in H.
  destruct (configs !! lower s) as [cls|].
  - apply instantiate_frame in H. cbn in H. naive_solver.
  - simplify_eq. cbn. split; [done | lia].
Qed.

Lemma get_config_wrapped_returns_recognised env_state w c w' :
  get_config_wrapped X env_state w = (Ok c, w') → recognised env_state.
Proof.
  unfold get_config_wrapped, raise, recognised. intros H.
  destruct (nonempty env_state) as [s|]; [|discriminate].
  exists s. split; [reflexivity|]. unfold bind in H.
  destruct ((if String.eqb (lower s) "dev" then promote_dev_credentials else ret tt) w)
    as [[[]|e] w1]; [|discriminate].
  destruct (configs !! lower s); [eauto | discriminate].
Qed.

(** *** The cache as an association list *)

Lemma cache_lookup_Some key c v :
  cache_lookup key c = Some v → (key, v) ∈ c.
Proof.
  induction c as [|[k0 v0] c IH]; cbn; [discriminate|].
  destruct (decide (k0 = key)) as [->|]; intros H.
  - simplify_eq. apply elem_of_cons. now left.
  - apply elem_of_cons. right. now apply IH.
Qed.

Lemma cache_lookup_head key v c :
  cache_lookup key ((key, v) :: c) = Some v.
Proof. cbn. now rewrite decide_True. Qed.

End ConfigFacts.

Lemma cache_sound_world0 : cache_sound world0.
Proof. intros k v H. now apply elem_of_nil in H. Qed.

(** X24.  Every call of [get_config] keeps the cache sound: worlds reached from
    an empty cache are sound. *)
Lemma get_config_preserves_cache_sound (X : Externals) env_state w r w' :
  cache_sound w →
  get_config X env_state w = (r, w') →
  cache_sound w'.
Proof.
  unfold get_config, lru_cache. intros Hsound H.
  destruct (cache_lookup env_state (cache w)) as [v|] eqn:Hlook.
  - simplify_eq. intros k0 v0 Hin. cbn in Hin.
    apply elem_of_cons in Hin as [Heq | Hin].
    + simplify_eq. apply cache_lookup_Some in Hlook. eauto.
    + unfold cache_drop in Hin. apply list_elem_of_filter in Hin as (_ & Hin). eauto.
  - destruct (get_config_wrapped X env_state w) as [[c|e] w1] eqn:Hw.
    + pose proof (get_config_wrapped_returns_recognised _ _ _ _ _ Hw) as Hrec.
      apply get_config_wrapped_frame in Hw as (Hc & _).
      simplify_eq. intros k0 v0 Hin. cbn [cache set_cache] in Hin.
      apply subseteq_take in Hin. apply elem_of_cons in Hin as [Heq | Hin].
      * now simplify_eq.
      * rewrite Hc in Hin. eauto.
    + apply get_config_wrapped_frame in Hw as (Hc & _).
      simplify_eq. intros k0 v0 Hin. rewrite Hc in Hin. eauto.
Qed.

(** C7.  An environment value that is unset, empty, or whose lower-case
    form is none of dev, test, prod: [get_config] raises, [ValueError] for
    the unset or empty value and [KeyError] for the unknown one, and the
    world is exactly the one before the call: nothing was resolved, no
    request was sent, nothing was logged, promoted or cached. *)
Theorem get_config_rejects_unknown_environment (X : Externals)
    (env_state : option string) (w : World) :
  cache_sound w →
  env_state = None ∨ env_state = Some "" ∨
    (∃ s, env_state = Some s ∧ lower s ≠ "dev" ∧ lower s ≠ "test" ∧ lower s ≠ "prod") →
  get_config X env_state w =
    (Raise (match nonempty env_state with
            | None => ValueError "ENV_STATE is not set. Possible values are: DEV, TEST, PROD"
                        None
            | Some s => KeyError (lower s)
            end), w).
Proof.
  intros Hsound Henv.
  assert (Hunrec : ¬ recognised env_state).
  { intros (s & Hs & cls & Hcls). apply configs_lookup_Some in Hcls.
    destruct Henv as [-> | [-> | (s0 & -> & Hd & Ht & Hp)]]; try discriminate.
    cbn in Hs. destruct (String.eqb s0 ""); [discriminate|]. simplify_eq. naive_solver. }
  assert (Hmiss : cache_lookup env_state (cache w) = None).
  { destruct (cache_lookup env_state (cache w)) as [v|] eqn:Hlook; [|reflexivity].
    apply cache_lookup_Some in Hlook. exfalso. eauto. }
  unfold get_config, lru_cache. rewrite Hmiss.
  unfold get_config_wrapped, raise.
  destruct Henv as [-> | [-> | (s0 & -> & Hd & Ht & Hp)]]; try reflexivity.
  cbn [nonempty]. destruct (String.eqb s0 ""); [reflexivity|].
  unfold bind. destruct (String.eqb_spec (lower s0) "dev"); [contradiction|].
  unfold ret. now rewrite configs_lookup_None.
Qed.

Lemma get_config_rejects_unknown_environment_witness :
  cache_sound world0 ∧
  (lower "Staging" ≠ "dev" ∧ lower "Staging" ≠ "test" ∧ lower "Staging" ≠ "prod") ∧
  get_config reliable_externals (Some "Staging") world0
    = (Raise (KeyError "staging"), world0).
Proof.
  assert (H : lower "Staging" ≠ "dev" ∧ lower "Staging" ≠ "test" ∧ lower "Staging" ≠ "prod")
    by (split_and!; discriminate).
  split; [exact cache_sound_world0|]. split; [exact H|].
  apply (get_config_rejects_unknown_environment reliable_externals (Some "Staging") world0
           cache_sound_world0).
  right. right. exists "Staging". split; [reflexivity | exact H].
Defined.

(** C6.  When [get_config] has returned a
    configuration for a value, the next call with that value returns the
    same object (same identity, no new object is allocated) and does no
    work: the resolver does not run again, no request is sent, nothing is
    logged and [os.environ] is not written.  Over the two calls the
    resolver ran at most once. *)
Theorem get_config_memoized (X : Externals) (env_state : option string)
    (w0 w1 : World) (c : ConfigInstance) :
  get_config X env_state w0 = (Ok c, w1) →
  (resolver_runs w1 ≤ S (resolver_runs w0))%nat ∧
  ∃ w2, get_config X env_state w1 = (Ok c, w2) ∧
        resolver_runs w2 = resolver_runs w1 ∧ next_id w2 = next_id w1 ∧
        calls w2 = calls w1 ∧ logs w2 = logs w1 ∧ sleeps w2 = sleeps w1 ∧
        environ w2 = environ w1.
Proof.
  unfold get_config, lru_cache. intros H.
  destruct (cache_lookup env_state (cache w0)) as [v|] eqn:Hlook.
  - simplify_eq. split; [cbn; lia|].
    cbn [cache set_cache]. rewrite cache_lookup_head.
    eexists. split; [reflexivity|]. done.
  - destruct (get_config_wrapped X env_state w0) as [[v|e] w'] eqn:Hw; [|discriminate].
    apply get_config_wrapped_frame in Hw as (_ & Hruns).
    simplify_eq. split; [cbn; lia|].
    cbn [cache set_cache]. unfold lru_maxsize. cbn [take].
    rewrite cache_lookup_head.
    eexists. split; [reflexivity|]. done.
Qed.

Lemma get_config_memoized_witness :
  get_config reliable_externals (Some "PROD") world0
    = (Ok (mkInstance 0 "ProdConfig" ∅),
       mkWorld ∅ [] [] [] [(Some "PROD", mkInstance 0 "ProdConfig" ∅)] 1 1) ∧
  ∃ w2,
    get_config reliable_externals (Some "PROD")
      (mkWorld ∅ [] [] [] [(Some "PROD", mkInstance 0 "ProdConfig" ∅)] 1 1)
      = (Ok (mkInstance 0 "ProdConfig" ∅), w2) ∧
    resolver_runs w2 = 1%nat ∧ next_id w2 = 1%nat ∧
    calls w2 = [] ∧ logs w2 = [] ∧ sleeps w2 = [] ∧ environ w2 = ∅.
Proof.
  assert (H : get_config reliable_externals (Some "PROD") world0
              = (Ok (mkInstance 0 "ProdConfig" ∅),
                 mkWorld ∅ [] [] [] [(Some "PROD", mkInstance 0 "ProdConfig" ∅)] 1 1))
    by (vm_compute; reflexivity).
  split; [exact H|].
  exact (proj2 (get_config_memoized reliable_externals (Some "PROD") world0 _ _ H)).
Defined.

(** C10.  When [get_config] raises, the cache is what it was before the
    call and holds no entry for the argument; the next call with the same
    argument therefore misses the cache and runs the decorated function
    again, caching its result only if it returns. *)
Theorem get_config_failure_not_cached (X : Externals) (env_state : option string)
    (w w1 : World) (e : Exn) :
  get_config X env_state w = (Raise e, w1) →
  cache w1 = cache w ∧
  cache_lookup env_state (cache w1) = None ∧
  get_config X env_state w1 =
    match get_config_wrapped X env_state w1 with
    | (Ok c, w2) => (Ok c, set_cache (take lru_maxsize ((env_state, c) :: cache w2)) w2)
    | (Raise e2, w2) => (Raise e2, w2)
    end.
Proof.
  unfold get_config, lru_cache. intros H.
  destruct (cache_lookup env_state (cache w)) as [v|] eqn:Hlook; [discriminate|].
  destruct (get_config_wrapped X env_state w) as [[v|e0] w'] eqn:Hw; [discriminate|].
  apply get_config_wrapped_frame in Hw as (Hc & _). simplify_eq.
  rewrite Hc, Hlook. done.
Qed.

(** Validation rejects the production settings: each of two calls in a row
    runs the resolver, and nothing is cached. *)
Lemma get_config_failure_not_cached_witness :
  get_config rejecting_externals (Some "prod") world0
    = (Raise (ValidationError "1 validation error for ProdConfig"),
       count_resolver_run world0) ∧
  (cache (count_resolver_run world0) = cache world0 ∧
   cache_lookup (Some "prod") (cache (count_resolver_run world0)) = None ∧
   get_config rejecting_externals (Some "prod") (count_resolver_run world0) =
     match get_config_wrapped rejecting_externals (Some "prod") (count_resolver_run world0) with
     | (Ok c, w2) => (Ok c, set_cache (take lru_maxsize ((Some "prod", c) :: cache w2)) w2)
     | (Raise e2, w2) => (Raise e2, w2)
     end) ∧
  resolver_runs
    (get_config rejecting_externals (Some "prod") (count_resolver_run world0)).2 = 2%nat.
Proof.
  assert (H : get_config rejecting_externals (Some "prod") world0
              = (Raise (ValidationError "1 validation error for ProdConfig"),
                 count_resolver_run world0))
    by (vm_compute; reflexivity).
  split; [exact H|]. split.
  - exact (get_config_failure_not_cached rejecting_externals (Some "prod") world0 _ _ H).
  - vm_compute. reflexivity.
Defined.

(** ** Further facts about [retry] *)


(** X2.  Without any attempt the loop body never runs: the wrapper returns
    [None] and the function is not invoked. *)
Lemma retry_without_attempts {A : Type} (sleep_error : Q → option Exn)
    (attempts : Z) (delay backoff : Q) (fn_name : string) (fn : Py A) (w : World) :
  attempts ≤ 0 →
  retry sleep_error attempts delay backoff fn_name fn w = (Ok None, w).
Proof.
  intros H. unfold retry, range.
  replace (Z.to_nat attempts) with 0%nat by lia. reflexivity.
Qed.

(** The default policy on an operation that returns at its third
    invocation: three requests, sleeps of 0.25 and 0.5. *)
Example retry_default_policy_third_attempt :
  retry refuses_negative default_attempts default_delay default_backoff "flaky_operation"
    (flaky_operation 2) world0
  = (Ok (Some (VStr "abc")),
     mkWorld ∅
       [mkLog WARNING
          "Retrying flaky_operation (attempt 2/3) after TimeoutError: timed out, invocation 0";
        mkLog WARNING
          "Retrying flaky_operation (attempt 3/3) after TimeoutError: timed out, invocation 1"]
       [(1 # 4)%Q; (2 # 4)%Q]
       [(Aws, "ref"); (Aws, "ref"); (Aws, "ref")] [] 0 0).
Proof. vm_compute. reflexivity. Qed.


Lemma retry_without_attempts_witness :
  0 ≤ 0 ∧
  retry refuses_negative 0 default_delay default_backoff "always_failing"
    always_failing world0
    = (Ok None, world0).
Proof.
  split; [lia|].
  apply (retry_without_attempts refuses_negative 0 default_delay default_backoff
           "always_failing" always_failing world0).
  lia.
Defined.

(** X3.  A function that returns at its first invocation is not disturbed by the
    wrapper: same value, same effects, no warning and no sleep. *)
Lemma retry_transparent_on_success {A : Type} (sleep_error : Q → option Exn)
    (attempts : Z) (delay backoff : Q) (fn_name : string) (fn : Py A)
    (w w1 : World) (a : A) :
  1 ≤ attempts →
  fn w = (Ok a, w1) →
  retry sleep_error attempts delay backoff fn_name fn w = (Ok (Some a), w1).
Proof.
  intros Hatt Hfn. unfold retry, range.
  destruct (Z.to_nat attempts) as [|n] eqn:Hn; [lia|].
  rewrite range_seq. now apply retry_loop_success.
Qed.

Lemma retry_transparent_on_success_witness :
  1 ≤ default_attempts ∧
  flaky_operation 0 world0 = (Ok (VStr "abc"), record_call Aws "ref" world0) ∧
  retry refuses_negative default_attempts default_delay default_backoff "flaky_operation"
    (flaky_operation 0) world0
  = (Ok (Some (VStr "abc")), record_call Aws "ref" world0).
Proof.
  assert (H : 1 ≤ default_attempts) by (unfold default_attempts; lia).
  split; [exact H|]. split; [reflexivity|].
  apply (retry_transparent_on_success refuses_negative default_attempts default_delay
           default_backoff "flaky_operation" (flaky_operation 0) world0 _ (VStr "abc") H).
  reflexivity.
Defined.

(** ** Further facts about the secret helpers *)

(** X4.  When the client of a store cannot be built, the helper raises that
    error at once: nothing is logged and no request is sent.  For GCP this
    comes before the check of the project id; for Azure after the check of
    the vault url. *)
Theorem helper_client_failure_propagates (X : Externals) (value : string)
    (w : World) (e : Exn) :
  (boto3_client X w = Some e → aws_secret_helper X value w = (Raise e, w)) ∧
  (SecretManagerServiceClient X w = Some e → gcp_secret_helper X value w = (Raise e, w)) ∧
  (∀ vault_url,
      nonempty (environ w !! "AZURE_KEY_VAULT_URL") = Some vault_url →
      SecretClient X w vault_url = Some e →
      azure_secret_helper X value w = (Raise e, w)).
Proof.
  split_and!.
  - intros H. unfold aws_secret_helper, bind, construct. now rewrite H.
  - intros H. unfold gcp_secret_helper, bind, construct. now rewrite H.
  - intros vault_url Hurl H.
    unfold azure_secret_helper, bind, get_world, construct. now rewrite Hurl, H.
Qed.

Lemma helper_client_failure_propagates_witness :
  boto3_client no_credentials_externals world0
    = Some (LibraryError "NoCredentialsError" "Unable to locate credentials") ∧
  aws_secret_helper no_credentials_externals "db-password" world0
    = (Raise (LibraryError "NoCredentialsError" "Unable to locate credentials"), world0).
Proof.
  split; [reflexivity|].
  apply (proj1 (helper_client_failure_propagates no_credentials_externals "db-password"
                  world0 _)).
  reflexivity.
Defined.

(** X5.  [aws_secret_helper] handles [ClientError] only.  Any other exception
    raised inside its [try], by the request itself or by decoding a binary
    payload, leaves the helper as it is and is not logged. *)
Theorem aws_other_errors_pass_unlogged (X : Externals) (value : string)
    (w : World) (e : Exn) :
  boto3_client X w = None →
  is_client_error e = false →
  (get_secret_value X w value = Raise e →
     aws_secret_helper X value w = (Raise e, record_call Aws value w)) ∧
  (∀ response binary,
     get_secret_value X w value = Ok response →
     nonempty (SecretString response) = None →
     nonempty_bytes (SecretBinary response) = Some binary →
     decode_utf8 X binary = Raise e →
     aws_secret_helper X value w = (Raise e, record_call Aws value w)).
Proof.
  intros Hclient He.
  unfold aws_secret_helper, construct, try_except, aws_try, bind, remote_call,
    lift, effect, ret, raise.
  rewrite Hclient. split.
  - intros ->. destruct e; try discriminate; reflexivity.
  - intros response binary -> -> -> ->. destruct e; try discriminate; reflexivity.
Qed.

Lemma aws_other_errors_pass_unlogged_witness :
  boto3_client (stub_externals (λ _ _, Raise connection_error) []) world0 = None ∧
  is_client_error connection_error = false ∧
  aws_secret_helper (stub_externals (λ _ _, Raise connection_error) []) "db-password" world0
    = (Raise connection_error, record_call Aws "db-password" world0).
Proof.
  split; [reflexivity|]. split; [reflexivity|].
  apply (proj1 (aws_other_errors_pass_unlogged
                  (stub_externals (λ _ _, Raise connection_error) [])
                  "db-password" world0 connection_error eq_refl eq_refl)).
  reflexivity.
Defined.

(** X6.  [gcp_secret_helper] without a project id.  With a client in hand and
    [GOOGLE_CLOUD_PROJECT] unset or empty, the helper raises a [ValueError];
    as the check sits inside the [try], the error is logged like a store
    failure; no request is sent. *)
Theorem gcp_requires_project (X : Externals) (value : string) (w : World) :
  SecretManagerServiceClient X w = None →
  nonempty (environ w !! "GOOGLE_CLOUD_PROJECT") = None →
  gcp_secret_helper X value w =
    (Raise (ValueError "GOOGLE_CLOUD_PROJECT environment variable must be set" None),
     emit ERROR ("Error fetching GCP secret " +:+ value
                 +:+ ": GOOGLE_CLOUD_PROJECT environment variable must be set") w).
Proof.
  intros Hclient Hproject.
  unfold gcp_secret_helper, construct, try_except, gcp_try, bind, get_world, raise, effect.
  rewrite Hclient, Hproject. reflexivity.
Qed.

Lemma gcp_requires_project_witness :
  SecretManagerServiceClient reliable_externals world0 = None ∧
  nonempty (environ world0 !! "GOOGLE_CLOUD_PROJECT") = None ∧
  gcp_secret_helper reliable_externals "db-password" world0 =
    (Raise (ValueError "GOOGLE_CLOUD_PROJECT environment variable must be set" None),
     emit ERROR "Error fetching GCP secret db-password: GOOGLE_CLOUD_PROJECT environment variable must be set"
       world0).
Proof.
  split; [reflexivity|]. split; [reflexivity|].
  apply (gcp_requires_project reliable_externals "db-password" world0); reflexivity.
Defined.

(** X7.  [gcp_secret_helper] with a project id [p]: one request, for the latest
    version of the secret under that project, whose payload is decoded and
    returned; the log names the reference only. *)
Theorem gcp_fetches_latest_version (X : Externals) (value project_id text : string)
    (data : list Byte.byte) (w : World) :
  SecretManagerServiceClient X w = None →
  nonempty (environ w !! "GOOGLE_CLOUD_PROJECT") = Some project_id →
  access_secret_version X w
    ("projects/" +:+ project_id +:+ "/secrets/" +:+ value +:+ "/versions/latest") = Ok data →
  decode_utf8 X data = Ok text →
  gcp_secret_helper X value w =
    (Ok (VStr text),
     emit DEBUG ("Fetched secret from GCP Secret Manager: " +:+ value)
       (record_call Gcp
          ("projects/" +:+ project_id +:+ "/secrets/" +:+ value +:+ "/versions/latest") w)).
Proof.
  intros Hclient Hproject Haccess Hdecode.
  unfold gcp_secret_helper, construct, try_except, gcp_try, bind, get_world, raise,
    effect, remote_call, lift, ret.
  rewrite Hclient, Hproject, Haccess, Hdecode. reflexivity.
Qed.

Lemma gcp_fetches_latest_version_witness :
  gcp_secret_helper reliable_externals "db-password"
    (world_with (<["GOOGLE_CLOUD_PROJECT" := "acme"]> ∅)) =
    (Ok (VStr "abc"),
     emit DEBUG "Fetched secret from GCP Secret Manager: db-password"
       (record_call Gcp "projects/acme/secrets/db-password/versions/latest"
          (world_with (<["GOOGLE_CLOUD_PROJECT" := "acme"]> ∅)))).
Proof.
  apply (gcp_fetches_latest_version reliable_externals "db-password" "acme" "abc"
           (list_byte_of_string "abc")
           (world_with (<["GOOGLE_CLOUD_PROJECT" := "acme"]> ∅)));
    vm_compute; reflexivity.
Defined.



(** X9.  [azure_secret_helper] without a vault url: it raises a [ValueError]
    before anything else happens.  No credential or client is built, no
    request is sent and, the check being outside the [try], nothing is
    logged. *)
Theorem azure_requires_vault_url (X : Externals) (value : string) (w : World) :
  nonempty (environ w !! "AZURE_KEY_VAULT_URL") = None →
  azure_secret_helper X value w =
    (Raise (ValueError "AZURE_KEY_VAULT_URL environment variable must be set" None), w).
Proof.
  intros Hurl. unfold azure_secret_helper, bind, get_world, raise.
  now rewrite Hurl.
Qed.

Lemma azure_requires_vault_url_witness :
  nonempty (environ (world_with (<["AZURE_KEY_VAULT_URL" := ""]> ∅))
              !! "AZURE_KEY_VAULT_URL") = None ∧
  azure_secret_helper no_credentials_externals "db-password"
    (world_with (<["AZURE_KEY_VAULT_URL" := ""]> ∅)) =
    (Raise (ValueError "AZURE_KEY_VAULT_URL environment variable must be set" None),
     world_with (<["AZURE_KEY_VAULT_URL" := ""]> ∅)).
Proof.
  assert (H : nonempty (environ (world_with (<["AZURE_KEY_VAULT_URL" := ""]> ∅))
                          !! "AZURE_KEY_VAULT_URL") = None) by (vm_compute; reflexivity).
  split; [exact H|].
  apply (azure_requires_vault_url no_credentials_externals "db-password"
           (world_with (<["AZURE_KEY_VAULT_URL" := ""]> ∅)) H).
Defined.

(** X10.  [azure_secret_helper] with a vault url and a client.  It sends one
    request for the secret by name to that vault.  The value of the secret
    is returned as it is, also when the vault holds no value ([None]); an
    error of the vault is logged at ERROR level and raised again unchanged. *)
Theorem azure_secret_helper_outcomes (X : Externals) (value vault_url : string)
    (w : World) :
  nonempty (environ w !! "AZURE_KEY_VAULT_URL") = Some vault_url →
  SecretClient X w vault_url = None →
  (∀ text, get_secret X w vault_url value = Ok (Some text) →
     azure_secret_helper X value w =
       (Ok (VStr text),
        emit DEBUG ("Fetched secret from Azure Key Vault: " +:+ value)
          (record_call Azure value w))) ∧
  (get_secret X w vault_url value = Ok None →
     azure_secret_helper X value w =
       (Ok VNone,
        emit DEBUG ("Fetched secret from Azure Key Vault: " +:+ value)
          (record_call Azure value w))) ∧
  (∀ e, get_secret X w vault_url value = Raise e →
     azure_secret_helper X value w =
       (Raise e,
        emit ERROR ("Error fetching Azure secret " +:+ value +:+ ": " +:+ exn_str e)
          (record_call Azure value w))).
Proof.
  intros Hurl Hclient.
  unfold azure_secret_helper, construct, try_except, azure_try, bind, get_world, raise,
    effect, remote_call, lift, ret.
  rewrite Hurl, Hclient. split_and!.
  - intros text ->. reflexivity.
  - intros ->. reflexivity.
  - intros e ->. reflexivity.
Qed.

Lemma azure_secret_helper_outcomes_witness :
  azure_secret_helper (cloud_externals (λ _ _, Ok []) (λ _ _ _, Ok None)) "db-password"
    (world_with (<["AZURE_KEY_VAULT_URL" := "https://acme.vault.azure.net"]> ∅)) =
    (Ok VNone,
     emit DEBUG "Fetched secret from Azure Key Vault: db-password"
       (record_call Azure "db-password"
          (world_with (<["AZURE_KEY_VAULT_URL" := "https://acme.vault.azure.net"]> ∅)))).
Proof.
  assert (Hurl : nonempty
                   (environ (world_with
                               (<["AZURE_KEY_VAULT_URL" := "https://acme.vault.azure.net"]> ∅))
                      !! "AZURE_KEY_VAULT_URL") = Some "https://acme.vault.azure.net")
    by (vm_compute; reflexivity).
  apply (proj1 (proj2 (azure_secret_helper_outcomes
                         (cloud_externals (λ _ _, Ok []) (λ _ _ _, Ok None))
                         "db-password" "https://acme.vault.azure.net" _ Hurl eq_refl))).
  reflexivity.
Defined.

(** X11.  What no helper ever does: it does not sleep, does not write
    [os.environ], leaves the cache of [get_config] alone, and in one call
    sends at most one request and logs at most one record. *)
Theorem helper_footprint (X : Externals) (k : BackendKind) (value : string) (w : World) :
  sleeps (fetch X k value w).2 = sleeps w ∧
  environ (fetch X k value w).2 = environ w ∧
  cache (fetch X k value w).2 = cache w ∧
  (∃ requests, calls (fetch X k value w).2 = calls w ++ requests
               ∧ (length requests ≤ 1)%nat) ∧
  (∃ records, logs (fetch X k value w).2 = logs w ++ records
              ∧ (length records ≤ 1)%nat).
Proof.
  destruct k; cbn [fetch];
    unfold aws_secret_helper, azure_secret_helper, gcp_secret_helper, construct,
      try_except, aws_try, azure_try, gcp_try, aws_except, bind, remote_call,
      lift, effect, ret, raise, get_world;
    repeat case_match; simplify_eq; cbn;
    (split_and!; [done | done | done | |]);
    first [ by (exists []; rewrite app_nil_r; split; [done | cbn; lia])
          | by (eexists [_]; split; [reflexivity | cbn; lia]) ].
Qed.

(** ** Further facts about [resolve_secrets] *)

Section MoreResolverFacts.
Variable X : Externals.

(** A loop all of whose turns copy builds the dictionary of its items and
    has no effect. *)
Lemma resolve_loop_all_copied m items resolved w :
  (∀ k v r0 w0, resolve_item X m r0 k v w0 = (Ok (<[k := v]> r0), w0)) →
  ∃ r', resolve_loop X m items resolved w = (Ok r', w)
        ∧ (NoDup items.*1 → r' = list_to_map items ∪ resolved).
Proof.
  intros Hcopy. revert resolved. induction items as [|[k v] items IH]; intros resolved.
  - exists resolved. split; [reflexivity|]. intros _. cbn. now rewrite (left_id ∅ (∪)).
  - cbn [resolve_loop]. unfold bind. rewrite Hcopy.
    destruct (IH (<[k := v]> resolved)) as (r' & Hrun & Hmap).
    exists r'. split; [exact Hrun|].
    rewrite fmap_cons, NoDup_cons. intros (Hfresh & Hnd). rewrite (Hmap Hnd).
    cbn. rewrite <- insert_union_l. apply symmetry, insert_union_r.
    now apply not_elem_of_list_to_map_1.
Qed.

Lemma base_mapping_classifies_nothing cls k :
  _get_secret_field_mapping cls = base_secret_field_mapping →
  classify cls k = None.
Proof.
  intros Hm. apply classify_none; rewrite Hm.
  - change (mapping_get base_secret_field_mapping "aws") with (@nil string). set_solver.
  - change (mapping_get base_secret_field_mapping "azure") with (@nil string). set_solver.
  - change (mapping_get base_secret_field_mapping "gcp") with (@nil string). set_solver.
Qed.

(** A turn of the loop sends at most one request and never sleeps. *)
Lemma resolve_item_requests m resolved k v w r w' :
  resolve_item X m resolved k v w = (r, w') →
  sleeps w' = sleeps w ∧
  (length (calls w) ≤ length (calls w') ≤ S (length (calls w)))%nat.
Proof.
  unfold resolve_item, bind, ret. intros H.
  repeat case_match; simplify_eq; try (split; [done | lia]);
    match goal with
    | Hf : aws_secret_helper X ?s ?w0 = _ |- _ =>
        apply (fetch_frame X Aws) in Hf; naive_solver
    | Hf : azure_secret_helper X ?s ?w0 = _ |- _ =>
        apply (fetch_frame X Azure) in Hf; naive_solver
    | Hf : gcp_secret_helper X ?s ?w0 = _ |- _ =>
        apply (fetch_frame X Gcp) in Hf; naive_solver
    end.
Qed.

Lemma resolve_loop_requests m items resolved w r w' :
  resolve_loop X m items resolved w = (r, w') →
  sleeps w' = sleeps w ∧
  (length (calls w) ≤ length (calls w') ≤ length (calls w) + length items)%nat.
Proof.
  revert resolved w. induction items as [|[k v] items IH]; intros resolved w H.
  - cbn in H. unfold ret in H. simplify_eq. split; [done | cbn; lia].
  - cbn [resolve_loop] in H. unfold bind in H.
    destruct (resolve_item X m resolved k v w) as [[r1|e] w1] eqn:Hitem;
      apply resolve_item_requests in Hitem as (Hs & Hc).
    + apply IH in H as (Hs' & Hc'). split; [congruence | cbn; lia].
    + simplify_eq. split; [done | cbn; lia].
Qed.

(** A classified field of a returned dictionary holds what its helper
    returned. *)
Lemma resolve_loop_fetched cls items resolved w r' w' k s kind :
  NoDup items.*1 →
  (k, VStr s) ∈ items →
  s ≠ "" →
  classify cls k = Some kind →
  resolve_loop X (_get_secret_field_mapping cls) items resolved w = (Ok r', w') →
  ∃ w0 w1 v, fetch X kind s w0 = (Ok v, w1) ∧ r' !! k = Some v ∧
             (length (calls w) ≤ length (calls w0))%nat ∧
             (length (calls w1) ≤ length (calls w'))%nat.
Proof.
  intros Hnd Hin Hs Hc. revert resolved w Hnd Hin.
  induction items as [|[k0 v0] items IH]; intros resolved w Hnd Hin H.
  - now apply elem_of_nil in Hin.
  - rewrite fmap_cons, NoDup_cons in Hnd. destruct Hnd as (Hfresh & Hnd).
    cbn [resolve_loop] in H. unfold bind in H.
    destruct (resolve_item X (_get_secret_field_mapping cls) resolved k0 v0 w)
      as [[r1|e] w1] eqn:Hitem; [|discriminate].
    apply elem_of_cons in Hin as [Heq | Hin].
    + cbn in Hfresh. injection Heq as <- <-.
      rewrite (resolve_item_classified X cls resolved k s kind w Hs Hc) in Hitem.
      unfold bind, ret in Hitem.
      destruct (fetch X kind s w) as [[v|e] w2] eqn:Hf; simplify_eq.
      exists w, w1, v. split_and!; [exact Hf | | lia |].
      * rewrite (resolve_loop_other_keys X _ _ _ _ _ _ _ H Hfresh).
        apply lookup_insert_eq.
      * apply resolve_loop_requests in H. lia.
    + apply resolve_item_requests in Hitem as (_ & Hcalls).
      destruct (IH _ _ Hnd Hin H) as (w0 & w2 & v & Hf & Hlook & Hlo & Hhi).
      exists w0, w2, v. split_and!; [done | done | lia | done].
Qed.

End MoreResolverFacts.

(** X12.  As shipped, no field is a secret reference: [BaseConfig] maps every
    store to the empty list and no subclass overrides it.  For such a class
    [resolve_secrets] is the identity on the payload and has no effect at
    all, whatever the stores would answer. *)
Theorem shipped_mapping_resolves_nothing (X : Externals) (cls : ConfigClass)
    (data : list (string * PyVal)) (w : World) :
  _get_secret_field_mapping cls = base_secret_field_mapping →
  NoDup data.*1 →
  resolve_secrets X cls data w = (Ok (list_to_map data), w).
Proof.
  intros Hm Hnd. unfold resolve_secrets.
  destruct (resolve_loop_all_copied X (_get_secret_field_mapping cls) data ∅ w)
    as (r' & Hrun & Hmap).
  { intros k v r0 w0. apply resolve_item_unclassified.
    now apply base_mapping_classifies_nothing. }
  rewrite Hrun, (Hmap Hnd). now rewrite (right_id ∅ (∪)).
Qed.

Lemma shipped_mapping_resolves_nothing_witness :
  _get_secret_field_mapping ProdConfig = base_secret_field_mapping ∧
  NoDup example_payload.*1 ∧
  resolve_secrets access_denied_externals ProdConfig example_payload world0
    = (Ok (list_to_map example_payload), world0).
Proof.
  split; [reflexivity|]. split; [exact example_payload_nodup|].
  apply (shipped_mapping_resolves_nothing access_denied_externals ProdConfig
           example_payload world0 eq_refl example_payload_nodup).
Defined.

(** X13.  The [if]/[elif] chain decides a name listed under several stores: AWS
    before Azure before GCP. *)
Theorem classification_priority (X : Externals) (m : gmap string (list string))
    (r : gmap string PyVal) (k s : string) (w : World) :
  s ≠ "" →
  (k ∈ mapping_get m "aws" →
     resolve_item X m r k (VStr s) w
     = (let! v := aws_secret_helper X s in ret (<[k := v]> r)) w) ∧
  (k ∉ mapping_get m "aws" → k ∈ mapping_get m "azure" →
     resolve_item X m r k (VStr s) w
     = (let! v := azure_secret_helper X s in ret (<[k := v]> r)) w) ∧
  (k ∉ mapping_get m "aws" → k ∉ mapping_get m "azure" → k ∈ mapping_get m "gcp" →
     resolve_item X m r k (VStr s) w
     = (let! v := gcp_secret_helper X s in ret (<[k := v]> r)) w).
Proof.
  intros Hs. unfold resolve_item, py_in. cbn [truthy isinstance_str].
  destruct (String.eqb_spec s ""); [contradiction|]. cbn [negb orb].
  split_and!.
  - intros Ha. now rewrite (bool_decide_eq_true_2 _ Ha).
  - intros Ha Hz.
    now rewrite (bool_decide_eq_false_2 _ Ha), (bool_decide_eq_true_2 _ Hz).
  - intros Ha Hz Hg.
    now rewrite (bool_decide_eq_false_2 _ Ha), (bool_decide_eq_false_2 _ Hz),
      (bool_decide_eq_true_2 _ Hg).
Qed.

(** [API_KEY] is listed under all three stores: the AWS store is asked. *)
Lemma classification_priority_witness :
  "secret-ref-123" ≠ "" ∧
  resolve_item reliable_externals (_get_secret_field_mapping AmbiguousConfig) ∅
    "API_KEY" (VStr "secret-ref-123") world0
  = (Ok (<["API_KEY" := VStr "abc"]> ∅),
     emit DEBUG "Fetched secret from AWS Secrets Manager: secret-ref-123"
       (record_call Aws "secret-ref-123" world0)).
Proof.
  assert (Hs : "secret-ref-123" ≠ "") by discriminate.
  split; [exact Hs|].
  rewrite (proj1 (classification_priority reliable_externals
                    (_get_secret_field_mapping AmbiguousConfig) ∅
                    "API_KEY" "secret-ref-123" world0 Hs)).
  - vm_compute. reflexivity.
  - change (mapping_get (_get_secret_field_mapping AmbiguousConfig) "aws")
      with ["API_KEY"].
    apply elem_of_cons. now left.
Defined.

(** X14.  [resolve_secrets] sends at most one request per field of the payload,
    in success and in failure, and never sleeps. *)
Theorem resolve_secrets_request_bound (X : Externals) (cls : ConfigClass)
    (data : list (string * PyVal)) (w : World) :
  (length (calls w) ≤ length (calls (resolve_secrets X cls data w).2)
     ≤ length (calls w) + length data)%nat ∧
  sleeps (resolve_secrets X cls data w).2 = sleeps w.
Proof.
  unfold resolve_secrets.
  destruct (resolve_loop X (_get_secret_field_mapping cls) data ∅ w) as [r w'] eqn:H.
  apply resolve_loop_requests in H. cbn. tauto.
Qed.

(** X15.  In a dictionary that [resolve_secrets] returns, a classified field
    with a non-empty reference holds the value that the helper of its
    backend returned for that reference in the course of this very
    resolution (between the world it started in and the world it ended
    in): never the raw reference kept by default, never a value of another
    origin. *)
Theorem resolved_secret_comes_from_backend (X : Externals) (cls : ConfigClass)
    (data : list (string * PyVal)) (k s : string) (kind : BackendKind)
    (w w' : World) (resolved : gmap string PyVal) :
  NoDup data.*1 →
  (k, VStr s) ∈ data →
  s ≠ "" →
  classify cls k = Some kind →
  resolve_secrets X cls data w = (Ok resolved, w') →
  ∃ w0 w1 v, fetch X kind s w0 = (Ok v, w1) ∧ resolved !! k = Some v ∧
             (length (calls w) ≤ length (calls w0))%nat ∧
             (length (calls w1) ≤ length (calls w'))%nat.
Proof.
  intros Hnd Hin Hs Hc H. unfold resolve_secrets in H.
  eapply resolve_loop_fetched; eauto.
Qed.

Lemma api_key_in_example_payload : ("API_KEY", VStr "secret-ref-123") ∈ example_payload.
Proof. unfold example_payload. set_solver. Qed.

Lemma resolved_secret_comes_from_backend_witness :
  NoDup example_payload.*1 ∧
  ("API_KEY", VStr "secret-ref-123") ∈ example_payload ∧
  classify SecretsConfig "API_KEY" = Some Aws ∧
  ∃ w0 w1 v,
    fetch reliable_externals Aws "secret-ref-123" w0 = (Ok v, w1) ∧
    (<["LOG_LEVEL" := VStr "INFO"]> (<["API_KEY" := VStr "abc"]> ∅) : gmap string PyVal)
      !! "API_KEY" = Some v ∧
    (length (calls world0) ≤ length (calls w0))%nat ∧
    (length (calls w1)
     ≤ length (calls (resolve_secrets reliable_externals SecretsConfig
                        example_payload world0).2))%nat.
Proof.
  assert (Hc : classify SecretsConfig "API_KEY" = Some Aws) by (vm_compute; reflexivity).
  split; [exact example_payload_nodup|]. split; [exact api_key_in_example_payload|].
  split; [exact Hc|].
  apply (resolved_secret_comes_from_backend reliable_externals SecretsConfig
           example_payload "API_KEY" "secret-ref-123" Aws world0
           (resolve_secrets reliable_externals SecretsConfig example_payload world0).2 _
           example_payload_nodup api_key_in_example_payload).
  - discriminate.
  - exact Hc.
  - vm_compute. reflexivity.
Defined.

(** ** Further facts about [get_config] *)

Lemma ascii_lower_idempotent (c : ascii) : ascii_lower (ascii_lower c) = ascii_lower c.
Proof. destruct c as [[] [] [] [] [] [] [] []]; reflexivity. Qed.

Lemma lower_idempotent (s : string) : lower (lower s) = lower s.
Proof.
  induction s as [|c s IH]; [reflexivity|].
  cbn [lower]. now rewrite ascii_lower_idempotent, IH.
Qed.

Lemma nonempty_lower (s : string) :
  nonempty (Some (lower s)) = lower <$> nonempty (Some s).
Proof. destruct s; reflexivity. Qed.

(** X16.  The selector is case-insensitive: a value and its lower-case form take
    the decorated function through the same steps, to the same result. *)
Theorem get_config_wrapped_ignores_case (X : Externals) (s : string) (w : World) :
  get_config_wrapped X (Some (lower s)) w = get_config_wrapped X (Some s) w.
Proof.
  unfold get_config_wrapped. rewrite nonempty_lower.
  destruct (nonempty (Some s)) as [s'|]; [|reflexivity].
  cbn [fmap option_fmap option_map]. now rewrite lower_idempotent.
Qed.

Section MoreConfigFacts.
Variable X : Externals.

(** An object that [instantiate] returns is new, of the class asked for,
    and the resolver has run once for it. *)
Lemma instantiate_returns cls w c w' :
  instantiate X cls w = (Ok c, w') →
  inst_id c = next_id w ∧ inst_class c = class_name cls ∧
  next_id w' = S (next_id w) ∧ resolver_runs w' = S (resolver_runs w).
Proof.
  unfold instantiate, bind, get_world, lift, effect, try_except, ret, raise.
  intros H.
  destruct (settings_sources X cls w) as [data|e0]; [|discriminate].
  destruct (resolve_secrets X cls data (count_resolver_run w)) as [[resolved|e1] w1] eqn:Hres;
    [|discriminate].
  unfold resolve_secrets in Hres. apply resolve_loop_frame in Hres.
  destruct Hres as (Hc & Hn & Hr & He). cbn in Hc, Hn, Hr, He.
  destruct (validate_fields X cls resolved); simplify_eq. cbn. now rewrite Hn, Hr.
Qed.

Lemma promote_eq prefix name w :
  promote prefix name w = (Ok tt, set_environ (promote_env prefix name (environ w)) w).
Proof.
  unfold promote, promote_env. destruct (nonempty (environ w !! (prefix +:+ name))).
  - reflexivity.
  - now destruct w.
Qed.

Lemma promote_dev_credentials_eq w :
  promote_dev_credentials w =
    (Ok tt,
     set_environ (foldl (λ env name, promote_env "DEV_" name env) (environ w)
                    dev_promoted_names) w).
Proof.
  unfold promote_dev_credentials, bind.
  repeat (rewrite promote_eq; cbn [environ set_environ logs sleeps calls cache next_id
                                   resolver_runs]).
  reflexivity.
Qed.

(** Promotions over a list of distinct names none of which is the prefixed
    form of another: every name gets its promoted value, every other
    variable stays. *)
Lemma foldl_promote_lookup prefix names :
  NoDup names →
  (∀ n, n ∈ names → prefix +:+ n ∉ names) →
  ∀ env x,
    foldl (λ env name, promote_env prefix name env) env names !! x
    = if decide (x ∈ names) then promoted_value prefix x env else env !! x.
Proof.
  induction names as [|n names IH]; intros Hnd Hpre env x.
  - cbn. destruct (decide (x ∈ [])) as [H|]; [now apply elem_of_nil in H | done].
  - apply NoDup_cons in Hnd as (Hfresh & Hnd). cbn [foldl].
    rewrite IH; [|done|].
    2:{ intros n' Hn' Hin. apply (Hpre n'); [now right | now right]. }
    assert (Hstep : ∀ y, y ≠ n → promote_env prefix n env !! y = env !! y).
    { intros y Hy. unfold promote_env.
      destruct (nonempty (env !! (prefix +:+ n))); [now rewrite lookup_insert_ne | done]. }
    destruct (decide (x ∈ names)) as [Hx|Hx].
    + rewrite decide_True by now right.
      assert (x ≠ n) by (intros ->; contradiction).
      unfold promoted_value. rewrite !Hstep; [done | done |].
      intros Heq. apply (Hpre x); [now right | rewrite Heq; now left].
    + destruct (decide (x = n)) as [->|Hne].
      * rewrite decide_True by now left.
        unfold promote_env, promoted_value.
        destruct (nonempty (env !! (prefix +:+ n))); [apply lookup_insert_eq | done].
      * rewrite decide_False by (intros [?|?]%elem_of_cons; contradiction).
        now apply Hstep.
Qed.

Lemma dev_promoted_names_nodup : NoDup dev_promoted_names.
Proof. compute_done. Qed.

Lemma dev_promoted_names_sources n :
  n ∈ dev_promoted_names → "DEV_" +:+ n ∉ dev_promoted_names.
Proof.
  unfold dev_promoted_names. intros Hn.
  repeat (apply elem_of_cons in Hn as [-> | Hn]; [compute_done|]).
  now apply elem_of_nil in Hn.
Qed.

Lemma cache_lookup_take_None key n c :
  cache_lookup key c = None → cache_lookup key (take n c) = None.
Proof.
  revert n. induction c as [|[k0 v0] c IH]; intros n H; [now destruct n|].
  destruct n; [reflexivity|]. cbn in *.
  destruct (decide (k0 = key)); [discriminate | now apply IH].
Qed.

End MoreConfigFacts.

(** X17.  In [dev], each of the nine credential variables takes the value of its
    [DEV_] form when that one is set and not empty, and keeps its own value
    otherwise; no other variable of [os.environ] changes.  This holds
    whether or not the configuration could then be built. *)
Theorem dev_promotes_credentials (X : Externals) (s name : string) (w : World) :
  lower s = "dev" →
  environ (get_config_wrapped X (Some s) w).2 !! name
  = if decide (name ∈ dev_promoted_names)
    then promoted_value "DEV_" name (environ w)
    else environ w !! name.
Proof.
  intros Hs. unfold get_config_wrapped.
  assert (Hne : nonempty (Some s) = Some s).
  { destruct s; [discriminate | reflexivity]. }
  rewrite Hne, Hs. cbn [String.eqb Ascii.eqb Bool.eqb]. unfold bind.
  rewrite promote_dev_credentials_eq.
  change (configs !! "dev") with (Some DevConfig). cbv iota.
  match goal with
  | |- environ (instantiate X DevConfig ?w1).2 !! _ = _ =>
      destruct (instantiate X DevConfig w1) as [r w'] eqn:Hinst
  end.
  apply instantiate_frame in Hinst as (_ & He & _). cbn [snd]. rewrite He. cbn [environ set_environ].
  apply foldl_promote_lookup.
  - exact dev_promoted_names_nodup.
  - exact dev_promoted_names_sources.
Qed.

Lemma dev_promotes_credentials_witness :
  lower "Dev" = "dev" ∧
  environ (get_config_wrapped reliable_externals (Some "Dev")
             (world_with (<["DEV_AWS_REGION" := "eu-west-1"]>
                            (<["AWS_REGION" := "us-east-1"]> ∅)))).2 !! "AWS_REGION"
  = Some "eu-west-1".
Proof.
  split; [reflexivity|].
  rewrite (dev_promotes_credentials reliable_externals "Dev" "AWS_REGION" _ eq_refl).
  vm_compute. reflexivity.
Defined.

(** X18.  Outside [dev], [get_config] never writes [os.environ], whether it
    returns, raises or answers from the cache. *)
Theorem only_dev_writes_environ (X : Externals) (env_state : option string) (w : World) :
  env_state = None ∨ (∃ s, env_state = Some s ∧ lower s ≠ "dev") →
  environ (get_config X env_state w).2 = environ w.
Proof.
  intros Henv. unfold get_config, lru_cache.
  destruct (cache_lookup env_state (cache w)); [reflexivity|].
  assert (Hw : environ (get_config_wrapped X env_state w).2 = environ w).
  { unfold get_config_wrapped, raise.
    destruct Henv as [-> | (s & -> & Hs)]; [reflexivity|].
    destruct (nonempty (Some s)) as [s'|] eqn:Hne; [|reflexivity].
    assert (s' = s) as -> by (destruct s; cbn in Hne; congruence).
    unfold bind. destruct (String.eqb_spec (lower s) "dev"); [contradiction|].
    unfold ret. destruct (configs !! lower s) as [cls|]; [|reflexivity].
    destruct (instantiate X cls w) as [r w'] eqn:Hinst.
    now apply instantiate_frame in Hinst as (_ & He & _). }
  destruct (get_config_wrapped X env_state w) as [[c|e] w']; exact Hw.
Qed.

Lemma only_dev_writes_environ_witness :
  lower "PROD" ≠ "dev" ∧
  environ (get_config reliable_externals (Some "PROD")
             (world_with (<["DEV_AWS_REGION" := "eu-west-1"]> ∅))).2
  = environ (world_with (<["DEV_AWS_REGION" := "eu-west-1"]> ∅)).
Proof.
  assert (H : lower "PROD" ≠ "dev") by discriminate.
  split; [exact H|].
  apply (only_dev_writes_environ reliable_externals (Some "PROD")
           (world_with (<["DEV_AWS_REGION" := "eu-west-1"]> ∅))).
  right. exists "PROD". split; [reflexivity | exact H].
Defined.

Section CacheFacts.
Variable X : Externals.

Lemma configs_are_shipped name cls :
  configs !! name = Some cls →
  _get_secret_field_mapping cls = base_secret_field_mapping.
Proof.
  unfold configs. intros H.
  repeat (apply lookup_insert_Some in H as [[_ <-] | [_ H]]; [reflexivity|]).
  now rewrite lookup_empty in H.
Qed.

(** What a returning call of the decorated function has done. *)
Lemma get_config_wrapped_returns env_state w c w' :
  get_config_wrapped X env_state w = (Ok c, w') →
  inst_id c = next_id w ∧ next_id w' = S (next_id w) ∧
  resolver_runs w' = S (resolver_runs w) ∧ cache w' = cache w ∧
  ∃ s cls, nonempty env_state = Some s ∧ configs !! lower s = Some cls
           ∧ inst_class c = class_name cls.
Proof.
  unfold get_config_wrapped, raise. intros H.
  destruct (nonempty env_state) as [s|]; [|discriminate].
  unfold bind in H.
  assert (Hpro : ∃ env', (if String.eqb (lower s) "dev"
                          then promote_dev_credentials else ret tt) w
                         = (Ok tt, set_environ env' w)).
  { destruct (String.eqb (lower s) "dev").
    - apply promote_dev_credentials_spec.
    - exists (environ w). unfold ret. now destruct w. }
  destruct Hpro as (env' & Hpro). rewrite Hpro in H.
  destruct (configs !! lower s) as [cls|] eqn:Hcls; [|discriminate].
  pose proof (instantiate_frame X _ _ _ _ H) as (Hc & _).
  apply instantiate_returns in H as (Hid & Hclass & Hn & Hr). cbn in *.
  split_and!; try done. eauto.
Qed.

(** Every variable outside the nine promoted ones keeps its value through
    the decorated function, whatever the selector. *)
Lemma get_config_wrapped_environ_other env_state w name :
  name ∉ dev_promoted_names →
  environ (get_config_wrapped X env_state w).2 !! name = environ w !! name.
Proof.
  intros Hname. unfold get_config_wrapped, raise.
  destruct (nonempty env_state) as [s|]; [|reflexivity].
  unfold bind. destruct (String.eqb (lower s) "dev").
  - rewrite promote_dev_credentials_eq.
    destruct (configs !! lower s) as [cls|].
    + match goal with
      | |- environ (instantiate X cls ?w1).2 !! _ = _ =>
          destruct (instantiate X cls w1) as [r w'] eqn:Hinst
      end.
      apply instantiate_frame in Hinst as (_ & He & _). cbn [snd]. rewrite He.
      cbn [environ set_environ].
      rewrite (foldl_promote_lookup "DEV_" dev_promoted_names
                 dev_promoted_names_nodup dev_promoted_names_sources).
      now rewrite decide_False.
    + cbn [snd environ set_environ].
      rewrite (foldl_promote_lookup "DEV_" dev_promoted_names
                 dev_promoted_names_nodup dev_promoted_names_sources).
      now rewrite decide_False.
  - unfold ret. destruct (configs !! lower s) as [cls|]; [|reflexivity].
    destruct (instantiate X cls w) as [r w'] eqn:Hinst.
    apply instantiate_frame in Hinst as (_ & He & _). cbn [snd]. now rewrite He.
Qed.

(** In [dev], a promoted variable whose [DEV_] form is set and not empty
    has that value after the decorated function. *)
Lemma get_config_wrapped_dev_promoted s w name v :
  lower s = "dev" →
  name ∈ dev_promoted_names →
  nonempty (environ w !! ("DEV_" +:+ name)) = Some v →
  environ (get_config_wrapped X (Some s) w).2 !! name = Some v.
Proof.
  intros Hs Hname Hv. unfold get_config_wrapped.
  assert (Hne : nonempty (Some s) = Some s).
  { destruct s; [discriminate | reflexivity]. }
  rewrite Hne, Hs. cbn [String.eqb Ascii.eqb Bool.eqb]. unfold bind.
  rewrite promote_dev_credentials_eq.
  change (configs !! "dev") with (Some DevConfig). cbv iota.
  match goal with
  | |- environ (instantiate X DevConfig ?w1).2 !! _ = _ =>
      destruct (instantiate X DevConfig w1) as [r w'] eqn:Hinst
  end.
  apply instantiate_frame in Hinst as (_ & He & _). cbn [snd]. rewrite He.
  cbn [environ set_environ].
  rewrite (foldl_promote_lookup "DEV_" dev_promoted_names
             dev_promoted_names_nodup dev_promoted_names_sources).
  rewrite decide_True by done. unfold promoted_value. now rewrite Hv.
Qed.

(** With the shipped classes, creating an object contacts no store, logs
    nothing and does not sleep. *)
Lemma instantiate_shipped_quiet cls w :
  _get_secret_field_mapping cls = base_secret_field_mapping →
  calls (instantiate X cls w).2 = calls w ∧
  logs (instantiate X cls w).2 = logs w ∧
  sleeps (instantiate X cls w).2 = sleeps w.
Proof.
  intros Hm. unfold instantiate, bind, get_world, lift, effect, try_except, ret, raise.
  destruct (settings_sources X cls w) as [data|e0]; [|done].
  unfold resolve_secrets.
  destruct (resolve_loop_all_copied X (_get_secret_field_mapping cls) data ∅
              (count_resolver_run w)) as (r' & Hrun & _).
  { intros k v r0 w0. apply resolve_item_unclassified.
    now apply base_mapping_classifies_nothing. }
  rewrite Hrun. destruct (validate_fields X cls r'); done.
Qed.

Lemma cache_sound_lookup env_state w :
  cache_sound w → ¬ recognised env_state → cache_lookup env_state (cache w) = None.
Proof.
  intros Hsound Hunrec.
  destruct (cache_lookup env_state (cache w)) as [v|] eqn:Hlook; [|reflexivity].
  apply cache_lookup_Some in Hlook. exfalso. eauto.
Qed.

End CacheFacts.

(** X19.  The cache is keyed by the argument as it is written, not by the
    environment it selects.  After a first call that had to build its
    object, a call with another argument that is not cached either (be it
    another spelling of the same environment) builds a second, distinct
    object and runs the resolver once more. *)
Theorem cache_is_keyed_by_spelling (X : Externals) (k1 k2 : option string)
    (w0 w1 w2 : World) (c1 c2 : ConfigInstance) :
  k1 ≠ k2 →
  cache_lookup k1 (cache w0) = None →
  cache_lookup k2 (cache w0) = None →
  get_config X k1 w0 = (Ok c1, w1) →
  get_config X k2 w1 = (Ok c2, w2) →
  inst_id c2 ≠ inst_id c1 ∧ resolver_runs w2 = S (S (resolver_runs w0)).
Proof.
  unfold get_config, lru_cache. intros Hk H1 H2 Hfirst Hsecond.
  rewrite H1 in Hfirst.
  destruct (get_config_wrapped X k1 w0) as [[c|e] w'] eqn:Hw1; [|discriminate].
  apply get_config_wrapped_returns in Hw1 as (Hid1 & Hn1 & Hr1 & Hc1 & _).
  simplify_eq. cbn [cache set_cache] in Hsecond.
  rewrite cache_lookup_take_None in Hsecond.
  2:{ cbn. rewrite decide_False by done. now rewrite Hc1. }
  destruct (get_config_wrapped X k2 (set_cache _ w')) as [[c|e] w''] eqn:Hw2;
    [|discriminate].
  apply get_config_wrapped_returns in Hw2 as (Hid2 & Hn2 & Hr2 & Hc2 & _).
  simplify_eq. cbn in *. split; lia.
Qed.

(** ["PROD"] and then ["prod"]: two objects of the production class. *)
Lemma cache_is_keyed_by_spelling_witness :
  get_config reliable_externals (Some "PROD") world0
    = (Ok (mkInstance 0 "ProdConfig" ∅),
       mkWorld ∅ [] [] [] [(Some "PROD", mkInstance 0 "ProdConfig" ∅)] 1 1) ∧
  (get_config reliable_externals (Some "prod")
     (mkWorld ∅ [] [] [] [(Some "PROD", mkInstance 0 "ProdConfig" ∅)] 1 1)).1
    = Ok (mkInstance 1 "ProdConfig" ∅) ∧
  inst_id (mkInstance 1 "ProdConfig" ∅) ≠ inst_id (mkInstance 0 "ProdConfig" ∅).
Proof.
  assert (H1 : get_config reliable_externals (Some "PROD") world0
               = (Ok (mkInstance 0 "ProdConfig" ∅),
                  mkWorld ∅ [] [] [] [(Some "PROD", mkInstance 0 "ProdConfig" ∅)] 1 1))
    by (vm_compute; reflexivity).
  split; [exact H1|]. split; [vm_compute; reflexivity|].
  apply (cache_is_keyed_by_spelling reliable_externals (Some "PROD") (Some "prod")
           world0 _
           (get_config reliable_externals (Some "prod")
              (mkWorld ∅ [] [] [] [(Some "PROD", mkInstance 0 "ProdConfig" ∅)] 1 1)).2
           _ _ ltac:(discriminate) eq_refl eq_refl H1).
  vm_compute. reflexivity.
Defined.

(** X20.  The object that the decorated function returns is an instance of the
    class its selector names: [DevConfig] for dev, [ProdConfig] for prod,
    [TestConfig] for test, in any capitalisation. *)
Theorem get_config_builds_selected_class (X : Externals) (s : string)
    (w w' : World) (c : ConfigInstance) :
  get_config_wrapped X (Some s) w = (Ok c, w') →
  (lower s = "dev" ∧ inst_class c = "DevConfig") ∨
  (lower s = "prod" ∧ inst_class c = "ProdConfig") ∨
  (lower s = "test" ∧ inst_class c = "TestConfig").
Proof.
  intros H. apply get_config_wrapped_returns in H
    as (_ & _ & _ & _ & s' & cls & Hne & Hcls & Hclass).
  assert (s' = s) as -> by (destruct s; cbn in Hne; congruence).
  unfold configs in Hcls.
  apply lookup_insert_Some in Hcls as [[<- <-] | [_ Hcls]]; [now left|].
  apply lookup_insert_Some in Hcls as [[<- <-] | [_ Hcls]]; [right; now left|].
  apply lookup_insert_Some in Hcls as [[<- <-] | [_ Hcls]]; [right; now right|].
  now rewrite lookup_empty in Hcls.
Qed.

Lemma get_config_builds_selected_class_witness :
  get_config_wrapped reliable_externals (Some "Test") world0
    = (Ok (mkInstance 0 "TestConfig" ∅), mkWorld ∅ [] [] [] [] 1 1) ∧
  ((lower "Test" = "dev" ∧ inst_class (mkInstance 0 "TestConfig" ∅) = "DevConfig") ∨
   (lower "Test" = "prod" ∧ inst_class (mkInstance 0 "TestConfig" ∅) = "ProdConfig") ∨
   (lower "Test" = "test" ∧ inst_class (mkInstance 0 "TestConfig" ∅) = "TestConfig")).
Proof.
  assert (H : get_config_wrapped reliable_externals (Some "Test") world0
              = (Ok (mkInstance 0 "TestConfig" ∅), mkWorld ∅ [] [] [] [] 1 1))
    by (vm_compute; reflexivity).
  split; [exact H|].
  exact (get_config_builds_selected_class reliable_externals "Test" world0 _ _ H).
Defined.

(** X21.  As shipped, [get_config] never contacts a secret store, logs nothing
    and never sleeps, whatever the selector and the environment: none of
    the three classes it can build declares a secret field. *)
Theorem shipped_get_config_contacts_no_store (X : Externals)
    (env_state : option string) (w : World) :
  calls (get_config X env_state w).2 = calls w ∧
  logs (get_config X env_state w).2 = logs w ∧
  sleeps (get_config X env_state w).2 = sleeps w.
Proof.
  unfold get_config, lru_cache.
  destruct (cache_lookup env_state (cache w)); [done|].
  assert (Hw : calls (get_config_wrapped X env_state w).2 = calls w ∧
               logs (get_config_wrapped X env_state w).2 = logs w ∧
               sleeps (get_config_wrapped X env_state w).2 = sleeps w).
  { unfold get_config_wrapped, raise.
    destruct (nonempty env_state) as [s|]; [|done].
    unfold bind.
    assert (Hpro : ∃ env', (if String.eqb (lower s) "dev"
                            then promote_dev_credentials else ret tt) w
                           = (Ok tt, set_environ env' w)).
    { destruct (String.eqb (lower s) "dev").
      - apply promote_dev_credentials_spec.
      - exists (environ w). unfold ret. now destruct w. }
    destruct Hpro as (env' & ->).
    destruct (configs !! lower s) as [cls|] eqn:Hcls; [|done].
    apply configs_are_shipped in Hcls.
    apply (instantiate_shipped_quiet X cls (set_environ env' w) Hcls). }
  destruct (get_config_wrapped X env_state w) as [[c|e] w']; exact Hw.
Qed.

(** X22.  Promotion and the Azure helper together.  In [dev], when
    [DEV_AZURE_KEY_VAULT_URL] is set and not empty, [azure_secret_helper]
    called after the decorated function finds its vault url, whatever
    [AZURE_KEY_VAULT_URL] was before: with a client in hand it sends its
    request to that vault and returns or raises what the vault answers. *)
Theorem dev_promotion_feeds_azure_helper (X : Externals) (s vault_url value : string)
    (w : World) :
  lower s = "dev" →
  nonempty (environ w !! "DEV_AZURE_KEY_VAULT_URL") = Some vault_url →
  SecretClient X (get_config_wrapped X (Some s) w).2 vault_url = None →
  (azure_secret_helper X value (get_config_wrapped X (Some s) w).2).1
  = match get_secret X (get_config_wrapped X (Some s) w).2 vault_url value with
    | Ok (Some text) => Ok (VStr text)
    | Ok None => Ok VNone
    | Raise e => Raise e
    end.
Proof.
  intros Hs Hurl Hclient.
  assert (Henv : environ (get_config_wrapped X (Some s) w).2 !! "AZURE_KEY_VAULT_URL"
                 = Some vault_url).
  { apply get_config_wrapped_dev_promoted; [done | compute_done | done]. }
  assert (Hne : nonempty (Some vault_url) = Some vault_url).
  { destruct (environ w !! "DEV_AZURE_KEY_VAULT_URL") as [u|]; [|discriminate].
    cbn in Hurl. destruct (String.eqb u "") eqn:Hu; [discriminate|].
    injection Hurl as ->. cbn. now rewrite Hu. }
  unfold azure_secret_helper, construct, try_except, azure_try, bind, get_world, raise,
    effect, remote_call, lift, ret.
  rewrite Henv, Hne, Hclient.
  destruct (get_secret X _ vault_url value) as [[text|]|e]; reflexivity.
Qed.

Lemma dev_promotion_feeds_azure_helper_witness :
  lower "DEV" = "dev" ∧
  (azure_secret_helper reliable_externals "db-password"
     (get_config_wrapped reliable_externals (Some "DEV")
        (world_with (<["DEV_AZURE_KEY_VAULT_URL" := "https://dev.vault.azure.net"]> ∅))).2).1
  = Ok (VStr "abc").
Proof.
  split; [reflexivity|].
  rewrite (dev_promotion_feeds_azure_helper reliable_externals "DEV"
             "https://dev.vault.azure.net" "db-password"
             (world_with (<["DEV_AZURE_KEY_VAULT_URL" := "https://dev.vault.azure.net"]> ∅))
             eq_refl).
  - reflexivity.
  - vm_compute. reflexivity.
  - reflexivity.
Defined.

(** X23.  Promotion and the GCP helper together.  [GOOGLE_CLOUD_PROJECT] is not
    among the promoted variables: when it is unset or empty before
    [get_config], it still is afterwards, also in [dev] and also when
    [DEV_GOOGLE_CLOUD_PROJECT] is set, and [gcp_secret_helper] raises its
    [ValueError]. *)
Theorem gcp_project_is_not_promoted (X : Externals) (env_state : option string)
    (value : string) (w : World) :
  nonempty (environ w !! "GOOGLE_CLOUD_PROJECT") = None →
  SecretManagerServiceClient X (get_config_wrapped X env_state w).2 = None →
  (gcp_secret_helper X value (get_config_wrapped X env_state w).2).1
  = Raise (ValueError "GOOGLE_CLOUD_PROJECT environment variable must be set" None).
Proof.
  intros Hproject Hclient.
  assert (Henv : environ (get_config_wrapped X env_state w).2 !! "GOOGLE_CLOUD_PROJECT"
                 = environ w !! "GOOGLE_CLOUD_PROJECT").
  { apply get_config_wrapped_environ_other. compute_done. }
  unfold gcp_secret_helper, construct, try_except, gcp_try, bind, get_world, raise, effect.
  rewrite Hclient, Henv, Hproject. reflexivity.
Qed.

Lemma gcp_project_is_not_promoted_witness :
  nonempty (environ (world_with (<["DEV_GOOGLE_CLOUD_PROJECT" := "acme-dev"]> ∅))
              !! "GOOGLE_CLOUD_PROJECT") = None ∧
  (gcp_secret_helper reliable_externals "db-password"
     (get_config_wrapped reliable_externals (Some "dev")
        (world_with (<["DEV_GOOGLE_CLOUD_PROJECT" := "acme-dev"]> ∅))).2).1
  = Raise (ValueError "GOOGLE_CLOUD_PROJECT environment variable must be set" None).
Proof.
  assert (H : nonempty (environ (world_with (<["DEV_GOOGLE_CLOUD_PROJECT" := "acme-dev"]> ∅))
                          !! "GOOGLE_CLOUD_PROJECT") = None) by (vm_compute; reflexivity).
  split; [exact H|].
  apply (gcp_project_is_not_promoted reliable_externals (Some "dev") "db-password"
           (world_with (<["DEV_GOOGLE_CLOUD_PROJECT" := "acme-dev"]> ∅)) H).
  reflexivity.
Defined.

Lemma get_config_preserves_cache_sound_witness :
  cache_sound world0 ∧
  cache_sound (get_config reliable_externals (Some "PROD") world0).2.
Proof.
  split; [exact cache_sound_world0|].
  apply (get_config_preserves_cache_sound reliable_externals (Some "PROD") world0
           (get_config reliable_externals (Some "PROD") world0).1
           (get_config reliable_externals (Some "PROD") world0).2
           cache_sound_world0).
  now destruct (get_config reliable_externals (Some "PROD") world0).
Defined.

(** X25.  The cache never outgrows its 128 places: a call moves an entry to the
    front, adds one and drops the least recently used, or leaves the cache
    as it is. *)
Theorem get_config_cache_is_bounded (X : Externals) (env_state : option string)
    (w : World) :
  (length (cache w) ≤ lru_maxsize)%nat →
  (length (cache (get_config X env_state w).2) ≤ lru_maxsize)%nat.
Proof.
  intros Hlen. unfold get_config, lru_cache.
  destruct (cache_lookup env_state (cache w)) as [v|] eqn:Hlook.
  - cbn. apply cache_lookup_Some in Hlook.
    pose proof (length_filter_lt (λ kv : option string * ConfigInstance, kv.1 ≠ env_state)
                  (cache w) (env_state, v) Hlook) as Hlt.
    unfold cache_drop. cbn in Hlt. specialize (Hlt ltac:(tauto)). lia.
  - destruct (get_config_wrapped X env_state w) as [[c|e] w'] eqn:Hw.
    + cbn [snd cache set_cache]. rewrite length_take. lia.
    + apply get_config_wrapped_frame in Hw as (Hc & _). cbn. now rewrite Hc.
Qed.

Lemma get_config_cache_is_bounded_witness :
  (length (cache world0) ≤ lru_maxsize)%nat ∧
  (length (cache (get_config reliable_externals (Some "PROD") world0).2) ≤ lru_maxsize)%nat.
Proof.
  assert (H : (length (cache world0) ≤ lru_maxsize)%nat) by (cbn; lia).
  split; [exact H|].
  exact (get_config_cache_is_bounded reliable_externals (Some "PROD") world0 H).
Defined.

(** ** The module-level configuration *)

(** X26.  Importing the settings module when [ENV_STATE] is unset or empty: the
    [BaseConfig] object is built first (the resolver runs for it), then
    [get_config] raises its [ValueError]; nothing is cached. *)
Theorem module_config_requires_env_state (X : Externals) (w w1 : World)
    (base : ConfigInstance) :
  cache_sound w →
  instantiate X BaseConfig w = (Ok base, w1) →
  nonempty (env_state_of base) = None →
  module_config X w =
    (Raise (ValueError "ENV_STATE is not set. Possible values are: DEV, TEST, PROD" None),
     w1)
  ∧ resolver_runs w1 = S (resolver_runs w) ∧ cache w1 = cache w.
Proof.
  intros Hsound Hbase Hunset.
  pose proof (instantiate_frame X _ _ _ _ Hbase) as (Hc & _).
  pose proof (instantiate_returns X _ _ _ _ Hbase) as (_ & _ & _ & Hr).
  split; [|done].
  unfold module_config, bind. rewrite Hbase.
  unfold get_config, lru_cache.
  rewrite cache_sound_lookup.
  - unfold get_config_wrapped. now rewrite Hunset.
  - intros k v Hin. rewrite Hc in Hin. eauto.
  - intros (s & Hs & _). congruence.
Qed.

Lemma module_config_requires_env_state_witness :
  cache_sound world0 ∧
  instantiate (sourced_externals [("LOG_LEVEL", VStr "INFO")]) BaseConfig world0
    = (Ok (mkInstance 0 "BaseConfig" (<["LOG_LEVEL" := VStr "INFO"]> ∅)),
       mkWorld ∅ [] [] [] [] 1 1) ∧
  module_config (sourced_externals [("LOG_LEVEL", VStr "INFO")]) world0 =
    (Raise (ValueError "ENV_STATE is not set. Possible values are: DEV, TEST, PROD" None),
     mkWorld ∅ [] [] [] [] 1 1).
Proof.
  assert (H : instantiate (sourced_externals [("LOG_LEVEL", VStr "INFO")]) BaseConfig world0
              = (Ok (mkInstance 0 "BaseConfig" (<["LOG_LEVEL" := VStr "INFO"]> ∅)),
                 mkWorld ∅ [] [] [] [] 1 1)) by (vm_compute; reflexivity).
  split; [exact cache_sound_world0|]. split; [exact H|].
  apply (module_config_requires_env_state (sourced_externals [("LOG_LEVEL", VStr "INFO")])
           world0 _ _ cache_sound_world0 H).
  vm_compute. reflexivity.
Defined.

(** X27.  Importing the settings module in a fresh process, when it
    succeeds: two objects have been built and the resolver has run twice,
    once for the [BaseConfig] object [base] that only serves to read
    [ENV_STATE] and once for the configuration.  The configuration alone is
    cached, and its key is the value of [ENV_STATE] exactly as [base] holds
    it, not its lower-case form. *)
Theorem module_config_builds_two_objects (X : Externals) (w w' : World)
    (c : ConfigInstance) :
  cache w = [] →
  module_config X w = (Ok c, w') →
  resolver_runs w' = S (S (resolver_runs w)) ∧
  next_id w' = S (S (next_id w)) ∧
  inst_id c = S (next_id w) ∧
  ∃ (base : ConfigInstance) (w1 : World) (s : string),
    instantiate X BaseConfig w = (Ok base, w1) ∧
    inst_id base = next_id w ∧
    inst_fields base !! "ENV_STATE" = Some (VStr s) ∧
    cache w' = [(Some s, c)].
Proof.
  intros Hcache. unfold module_config, bind. intros H.
  destruct (instantiate X BaseConfig w) as [[base|e] w1] eqn:Hbase; [|discriminate].
  pose proof (instantiate_frame X _ _ _ _ Hbase) as (Hc1 & _).
  pose proof (instantiate_returns X _ _ _ _ Hbase) as (Hid1 & _ & Hn1 & Hr1).
  unfold get_config, lru_cache in H. rewrite Hc1, Hcache in H. cbn [cache_lookup] in H.
  destruct (get_config_wrapped X (env_state_of base) w1) as [[c2|e] w2] eqn:Hw;
    [|discriminate].
  apply get_config_wrapped_returns in Hw
    as (Hid & Hn2 & Hr2 & Hc2 & s & cls & Hne & _).
  simplify_eq. cbn. rewrite Hc2, Hc1, Hcache. split_and!; try lia.
  unfold env_state_of in *.
  destruct (inst_fields base !! "ENV_STATE") as [[| | |s0|]|] eqn:Hfield;
    try discriminate.
  exists base, w1, s0. split_and!; done.
Qed.

Lemma module_config_builds_two_objects_witness :
  cache world0 = [] ∧
  module_config (sourced_externals [("ENV_STATE", VStr "PROD")]) world0
    = (Ok (mkInstance 1 "ProdConfig" (<["ENV_STATE" := VStr "PROD"]> ∅)),
       mkWorld ∅ [] [] []
         [(Some "PROD", mkInstance 1 "ProdConfig" (<["ENV_STATE" := VStr "PROD"]> ∅))]
         2 2) ∧
  resolver_runs
    (mkWorld ∅ [] [] []
       [(Some "PROD", mkInstance 1 "ProdConfig" (<["ENV_STATE" := VStr "PROD"]> ∅))]
       2 2) = 2%nat.
Proof.
  assert (H : module_config (sourced_externals [("ENV_STATE", VStr "PROD")]) world0
              = (Ok (mkInstance 1 "ProdConfig" (<["ENV_STATE" := VStr "PROD"]> ∅)),
                 mkWorld ∅ [] [] []
                   [(Some "PROD",
                     mkInstance 1 "ProdConfig" (<["ENV_STATE" := VStr "PROD"]> ∅))]
                   2 2)) by (vm_compute; reflexivity).
  split; [reflexivity|]. split; [exact H|].
  exact (proj1 (module_config_builds_two_objects
                  (sourced_externals [("ENV_STATE", VStr "PROD")]) world0 _ _ eq_refl H)).
Defined.

(** The selector is cached as written: with [ENV_STATE=PROD] the only key
    of the cache after the import is ["PROD"], and a call with ["prod"]
    misses it. *)
Example module_config_key_is_not_lowered :
  (cache (module_config (sourced_externals [("ENV_STATE", VStr "PROD")]) world0).2).*1
    = [Some "PROD"] ∧
  cache_lookup (Some "prod")
    (cache (module_config (sourced_externals [("ENV_STATE", VStr "PROD")]) world0).2)
    = None.
Proof. split; vm_compute; reflexivity. Qed.

(** ** [setup_logging] *)

(** X28.  The dictionary that [setup_logging] hands to [dictConfig] is closed,
    whatever the configuration: the handlers of the ["src"] logger are
    exactly the handlers it defines, and every formatter that a handler
    names is defined. *)
Theorem logging_dict_is_closed (config : LoggingSettings) :
  dict_get "handlers" (as_dict (default (CDict [])
                                  (dict_get "src" (section_of "loggers" (setup_logging config)))))
  = Some (CNames (section_of "handlers" (setup_logging config)).*1)
  ∧ Forall (λ handler,
              ∀ f, dict_get "formatter" (as_dict handler.2) = Some (CStr f) →
                   is_Some (dict_get f (section_of "formatters" (setup_logging config))))
      (section_of "handlers" (setup_logging config)).
Proof.
  unfold setup_logging. destruct (truthy (OPEN_TELEMETRY_FLAG config)).
  - split; [reflexivity|].
    repeat constructor; cbn; intros f Hf; simplify_eq; cbn; eauto.
  - split; [reflexivity|].
    repeat constructor; cbn; intros f Hf; simplify_eq; cbn; eauto.
Qed.

(** X29.  Telemetry is switched by [OPEN_TELEMETRY_FLAG] alone.  When it is
    truthy, a span exporter and a log exporter are created for the two
    configured endpoints, each with the authorization token as its
    [Authorization] header, and the handlers are [default] and [otel].
    When it is falsy, no exporter is created (the endpoints and the token
    are not used) and [default] is the only handler. *)
Theorem telemetry_follows_flag (config : LoggingSettings) :
  (truthy (OPEN_TELEMETRY_FLAG config) = true →
     filter is_exporter (setup_logging config)
     = [OTLPSpanExporter (OPEN_TELEMETRY_TRACE_ENDPOINT config)
          [("Authorization", OPEN_TELEMETRY_AUTHORIZATION_TOKEN config)];
        OTLPLogExporter (OPEN_TELEMETRY_LOG_ENDPOINT config)
          [("Authorization", OPEN_TELEMETRY_AUTHORIZATION_TOKEN config)]]
     ∧ (section_of "handlers" (setup_logging config)).*1 = ["default"; "otel"]) ∧
  (truthy (OPEN_TELEMETRY_FLAG config) = false →
     filter is_exporter (setup_logging config) = []
     ∧ (section_of "handlers" (setup_logging config)).*1 = ["default"]).
Proof.
  unfold setup_logging. split; intros ->; split; reflexivity.
Qed.

(** X30.  One level for everything: each handler and the ["src"] logger are set
    to [config.LOG_LEVEL]. *)
Theorem logging_levels_follow_config (config : LoggingSettings) :
  Forall (λ handler, dict_get "level" (as_dict handler.2) = Some (CPy (LOG_LEVEL config)))
    (section_of "handlers" (setup_logging config))
  ∧ dict_get "level" (as_dict (default (CDict [])
                                 (dict_get "src" (section_of "loggers" (setup_logging config)))))
    = Some (CPy (LOG_LEVEL config)).
Proof.
  unfold setup_logging. destruct (truthy (OPEN_TELEMETRY_FLAG config));
    (split; [repeat constructor | reflexivity]).
Qed.

(** The production and the development settings, run. *)
Example setup_logging_prod_and_dev :
  (section_of "handlers" (setup_logging prod_logging)).*1 = ["default"; "otel"] ∧
  length (filter is_exporter (setup_logging prod_logging)) = 2%nat ∧
  (section_of "handlers" (setup_logging dev_logging)).*1 = ["default"] ∧
  filter is_exporter (setup_logging dev_logging) = [].
Proof. repeat split. Qed.

Lemma telemetry_follows_flag_witness :
  truthy (OPEN_TELEMETRY_FLAG prod_logging) = true ∧
  filter is_exporter (setup_logging prod_logging)
  = [OTLPSpanExporter (VStr "https://otel.example/v1/traces")
       [("Authorization", VStr "Bearer t0ken")];
     OTLPLogExporter (VStr "https://otel.example/v1/logs")
       [("Authorization", VStr "Bearer t0ken")]] ∧
  (section_of "handlers" (setup_logging prod_logging)).*1 = ["default"; "otel"].
Proof.
  split; [reflexivity|].
  exact (proj1 (telemetry_follows_flag prod_logging) eq_refl).
Defined.

(** ** [retry] and a sleep that is refused *)

(** When [time.sleep] refuses the first delay, the wrapper is left after a
    single invocation: it raises the refusal, not the error of the
    operation, and has logged the warning but slept no time. *)
Lemma retry_refused_sleep_leaves_wrapper {A : Type} (sleep_error : Q → option Exn)
    (attempts : Z) (delay backoff : Q) (fn_name : string) (fn : Py A)
    (w w1 : World) (e refusal : Exn) :
  2 ≤ attempts →
  fn w = (Raise e, w1) →
  sleep_error delay = Some refusal →
  retry sleep_error attempts delay backoff fn_name fn w
  = (Raise refusal, emit WARNING (retry_warning fn_name 0 attempts e) w1).
Proof.
  intros Hatt Hfn Hsleep. unfold retry, range.
  destruct (Z.to_nat attempts) as [|n] eqn:Hn; [lia|].
  rewrite range_seq. apply retry_loop_refused; [done | cbn; lia | done].
Qed.

(** A negative delay under the default number of attempts: one invocation,
    one warning, then the [ValueError] of [time.sleep]. *)
Example retry_negative_delay :
  retry refuses_negative default_attempts (-1)%Q default_backoff "always_failing"
    always_failing world0
  = (Raise (ValueError "sleep length must be non-negative" None),
     mkWorld ∅
       [mkLog WARNING
          "Retrying always_failing (attempt 2/3) after TimeoutError: timed out, invocation 0"]
       [] [(Aws, "ref")] [] 0 0).
Proof. vm_compute. reflexivity. Qed.
